(** * NBA-Weekly: the paginated fetch with retry of [app.py]

    A shallow embedding of [safe_get] and [fetch_games] (src/app.py) and of
    the library calls they make ([requests], [time.sleep], [pandas],
    [st.cache_data]), followed by the properties of the specification. *)

From Stdlib Require Import ZArith QArith Qpower String Ascii List Bool Lia.
From Stdlib Require Import Sorting.Sorted Sorting.Permutation.
From Stdlib Require Import DecimalString Floats.PrimFloat OrderedTypeEx.
From stdpp Require Import base gmap strings list fin_maps.

Set Warnings "-register-all".
Local Open Scope string_scope.
Local Open Scope Z_scope.

(** ** Python values

    The objects [r.json()] yields: [None], [bool], [int], [float], [str],
    [list] and [dict].  A [dict] keeps its insertion order (the order of the
    columns of a frame comes from it), so it is an association list read at
    its first binding; [str] is a string of 8-bit characters. *)

Inductive pyobj : Type :=
  | PNone
  | PBool (b : bool)
  | PInt (z : Z)
  | PFloat (f : PrimFloat.float)
  | PStr (s : string)
  | PList (l : list pyobj)
  | PDict (d : list (string * pyobj)).

Definition dict := list (string * pyobj).

Fixpoint dict_get (d : dict) (k : string) : option pyobj :=
  match d with
  | [] => None
  | (k', v) :: d' => if String.eqb k' k then Some v else dict_get d' k
  end.

(** [d[k] = v]: an existing key keeps its place, a new one goes last. *)
Fixpoint dict_set (d : dict) (k : string) (v : pyobj) : dict :=
  match d with
  | [] => [(k, v)]
  | (k', v') :: d' =>
      if String.eqb k' k then (k', v) :: d' else (k', v') :: dict_set d' k v
  end.

Definition dict_keys (d : dict) : list string := map fst d.

(** [bool(o)] *)
Definition truthy (o : pyobj) : bool :=
  match o with
  | PNone => false
  | PBool b => b
  | PInt z => negb (z =? 0)
  | PFloat f => negb (PrimFloat.eqb f PrimFloat.zero)
  | PStr s => negb (String.eqb s "")
  | PList l => match l with [] => false | _ => true end
  | PDict d => match d with [] => false | _ => true end
  end.

Definition type_name (o : pyobj) : string :=
  match o with
  | PNone => "NoneType"
  | PBool _ => "bool"
  | PInt _ => "int"
  | PFloat _ => "float"
  | PStr _ => "str"
  | PList _ => "list"
  | PDict _ => "dict"
  end.

(** [str(z)] for an [int] *)
Definition str_int (z : Z) : string := NilZero.string_of_int (Z.to_int z).

(** ** Exceptions and results *)

(** An exception: its class and [str(e)]. *)
Inductive exn : Type := Exn (cls : string) (msg : string).

Definition str_exn (e : exn) : string := let 'Exn _ m := e in m.

Definition RuntimeError := Exn "RuntimeError".
Definition AttributeError := Exn "AttributeError".
Definition TypeError := Exn "TypeError".
Definition ValueError := Exn "ValueError".
Definition KeyError := Exn "KeyError".
Definition HTTPError := Exn "HTTPError".
(** [st.stop()] ends the script run by raising this. *)
Definition StopException := Exn "StopException" "".

Definition no_attribute (o : pyobj) (attr : string) : exn :=
  AttributeError ("'" +:+ type_name o +:+ "' object has no attribute '" +:+ attr +:+ "'").

(** [str(last_err)] where [last_err] is [None] or an exception *)
Definition str_opt_exn (e : option exn) : string :=
  match e with
  | None => "None"
  | Some e => str_exn e
  end.

(** What running a piece of the program gives: a value, a raised exception,
    a loop cut by the fuel of the model, or a call into [pandas] outside the
    part of it that is modelled. *)
Inductive result (A : Type) : Type :=
  | Ok (a : A)
  | Raise (e : exn)
  | OutOfFuel
  | Unsupported.
Arguments Ok {A} a.
Arguments Raise {A} e.
Arguments OutOfFuel {A}.
Arguments Unsupported {A}.

Definition rbind {A B} (r : result A) (k : A -> result B) : result B :=
  match r with
  | Ok a => k a
  | Raise e => Raise e
  | OutOfFuel => OutOfFuel
  | Unsupported => Unsupported
  end.

Notation "'let+' x ':=' r 'in' k" := (rbind r (fun x => k))
  (at level 10, x name, r at level 100, k at level 200).

(** ** The outside world: requests sent and time slept *)

Record Request : Type := mkRequest {
  url : string;
  params : dict;
  headers : list (string * string);
  timeout : Z
}.

(** A [requests.Response], by what the program reads of it. [json] is what
    [r.json()] does: return the decoded body or raise. *)
Record Response : Type := mkResponse {
  status_code : Z;
  reason : string;
  json : exn + pyobj
}.

(** One call of [requests.get]: it raises, or it returns a response. *)
Inductive Attempt : Type :=
  | Raises (e : exn)
  | Responds (r : Response).

(** The network: what the [n]-th call of [requests.get] of the process
    (counted from 0) gives for the request it carries. *)
Definition Transport := nat -> Request -> Attempt.

Record World : Type := mkWorld {
  sent : list Request;   (* every requests.get so far, oldest first *)
  slept : list Q         (* every time.sleep so far, in seconds *)
}.

Definition world0 : World := mkWorld [] [].

(** State and exceptions: a computation reads and extends the world. *)
Definition M (A : Type) : Type := World -> result A * World.

Definition ret {A} (a : A) : M A := fun w => (Ok a, w).
Definition raise {A} (e : exn) : M A := fun w => (Raise e, w).
Definition lift {A} (r : result A) : M A := fun w => (r, w).

Definition bind {A B} (m : M A) (k : A -> M B) : M B :=
  fun w =>
    match m w with
    | (Ok a, w') => k a w'
    | (Raise e, w') => (Raise e, w')
    | (OutOfFuel, w') => (OutOfFuel, w')
    | (Unsupported, w') => (Unsupported, w')
    end.

Notation "'let*' x ':=' m 'in' k" := (bind m (fun x => k))
  (at level 10, x name, m at level 100, k at level 200).
Notation "'run*' m 'in' k" := (bind m (fun _ => k))
  (at level 10, m at level 100, k at level 200).

Definition requests_get (tr : Transport) (req : Request) : M Response :=
  fun w =>
    let w' := mkWorld (sent w ++ [req]) (slept w) in
    match tr (length (sent w)) req with
    | Raises e => (Raise e, w')
    | Responds r => (Ok r, w')
    end.

(** [time.sleep(d)]: a negative length is a [ValueError]. Lengths are exact
    rationals here; Python computes them in binary floating point. *)
Definition time_sleep (d : Q) : M unit :=
  fun w =>
    if Qle_bool 0 d then (Ok tt, mkWorld (sent w) (slept w ++ [d]))
    else (Raise (ValueError "sleep length must be non-negative"), w).

(** The error [r.raise_for_status()] of requests raises, on 4xx and 5xx. *)
Definition http_error (u : string) (r : Response) : option exn :=
  let c := status_code r in
  if (400 <=? c) && (c <? 500) then
    Some (HTTPError (str_int c +:+ " Client Error: " +:+ reason r +:+ " for url: " +:+ u))
  else if (500 <=? c) && (c <? 600) then
    Some (HTTPError (str_int c +:+ " Server Error: " +:+ reason r +:+ " for url: " +:+ u))
  else None.

Definition raise_for_status (u : string) (r : Response) : M unit :=
  match http_error u r with
  | Some e => raise e
  | None => ret tt
  end.

Definition response_json (r : Response) : M pyobj :=
  match json r with
  | inl e => raise e
  | inr v => ret v
  end.

(** ** [safe_get] *)

(** How one turn of the [for] loop ends when it does not raise. *)
Inductive turn : Type :=
  | Continue
  | Return (v : pyobj).

(** [backoff ** i] *)
Definition pow (backoff : Q) (i : nat) : Q := Qpower backoff (Z.of_nat i).

Section SafeGet.
Variable tr : Transport.
Variables (u : string) (ps : dict) (hs : list (string * string)).
Variables (tmo retries : Z) (backoff : Q).

(** The body of the [try]. *)
Definition safe_get_try (i : nat) : M turn :=
  let* r := requests_get tr (mkRequest u ps hs tmo) in
  if status_code r =? 429 then
    run* time_sleep (pow backoff i) in
    ret Continue
  else
    run* raise_for_status u r in
    let* v := response_json r in
    ret (Return v).

(** [for i in range(retries)], with [last_err] carried along, then the
    [raise RuntimeError] after the loop. *)
Fixpoint safe_get_for (range : list nat) (last_err : option exn) : M pyobj :=
  match range with
  | [] =>
      raise (RuntimeError ("Request failed after " +:+ str_int retries
                           +:+ " tries: " +:+ str_opt_exn last_err))
  | i :: range' =>
      fun w =>
        match safe_get_try i w with
        | (Ok Continue, w1) => safe_get_for range' last_err w1
        | (Ok (Return v), w1) => (Ok v, w1)
        | (Raise e, w1) =>
            (run* time_sleep (pow backoff i) in safe_get_for range' (Some e)) w1
        | (OutOfFuel, w1) => (OutOfFuel, w1)
        | (Unsupported, w1) => (Unsupported, w1)
        end
  end.

Definition safe_get : M pyobj :=
  safe_get_for (seq 0 (Z.to_nat retries)) None.
End SafeGet.

(** The defaults of [safe_get]: [timeout=20, retries=4, backoff=1.8]. *)
Definition default_timeout : Z := 20.
Definition default_retries : Z := 4.
Definition default_backoff : Q := 18 # 10.

(** ** Dates, the environment and the API key *)

(** A [datetime.date]. *)
Record date : Type := mkDate { year : Z; month : Z; day : Z }.

(** The decimal digits of [z], padded on the left with zeros to [width]. *)
Definition zero_pad (width : nat) (z : Z) : string :=
  let s := str_int z in
  String.concat "" (repeat "0" (width - String.length s)) +:+ s.

(** [d.isoformat()], that is [YYYY-MM-DD] *)
Definition isoformat (d : date) : string :=
  zero_pad 4 (year d) +:+ "-" +:+ zero_pad 2 (month d) +:+ "-" +:+ zero_pad 2 (day d).

Definition API_BASE : string := "https://api.balldontlie.io".

(** [os.getenv] *)
Definition Environ := string -> option string.

(** [a or b] on what [os.getenv] returns: [a] unless it is [None] or empty. *)
Definition or_else (a b : option string) : option string :=
  match a with
  | Some s => if String.eqb s "" then b else a
  | None => b
  end.

(** [bdl_headers]: without a key, [st.error] and then [st.stop()]. *)
Definition bdl_headers (environ : Environ) : M (list (string * string)) :=
  let api_key := or_else (environ "BALLDONTLIE_API_KEY") (environ "BALDONTLIE_API_KEY") in
  match api_key with
  | None => raise StopException
  | Some k =>
      if String.eqb k "" then raise StopException
      else ret [("Authorization", k)]
  end.

(** ** [fetch_games]: collecting the pages (lines 50 to 67) *)

(** [o.get(k, default)]: a method of [dict] only. *)
Definition py_get (o : pyobj) (k : string) (default : pyobj) : result pyobj :=
  match o with
  | PDict d => Ok (match dict_get d k with Some v => v | None => default end)
  | _ => Raise (no_attribute o "get")
  end.

Definition chars (s : string) : list pyobj :=
  map (fun c => PStr (String c EmptyString)) (list_ascii_of_string s).

(** What [rows.extend(o)] appends: the items of a list, the keys of a dict,
    the characters of a string; other objects are not iterable. *)
Definition py_iter (o : pyobj) : result (list pyobj) :=
  match o with
  | PList l => Ok l
  | PDict d => Ok (map PStr (dict_keys d))
  | PStr s => Ok (chars s)
  | _ => Raise (TypeError ("'" +:+ type_name o +:+ "' object is not iterable"))
  end.

(** Line 61: the rows [payload.get("data", [])] adds to [rows]. *)
Definition page_rows (payload : pyobj) : result (list pyobj) :=
  let+ data := py_get payload "data" (PList []) in
  py_iter data.

(** Lines 62 and 64: [meta = payload.get("meta", {}) or {}] and then
    [meta.get("next_cursor")]. *)
Definition page_next_cursor (payload : pyobj) : result pyobj :=
  let+ meta0 := py_get payload "meta" (PDict []) in
  let meta := if truthy meta0 then meta0 else PDict [] in
  py_get meta "next_cursor" PNone.

Section Collect.
Variable tr : Transport.
Variables (start_date end_date : date) (per_page : Z).
Variable hs : list (string * string).

Definition games_url : string := API_BASE +:+ "/v1/games".

Definition page_params (cursor : pyobj) : dict :=
  [ ("start_date", PStr (isoformat start_date));
    ("end_date", PStr (isoformat end_date));
    ("per_page", PInt per_page);
    ("cursor", cursor) ].

(** The [while True] loop; [fuel] bounds the number of turns. *)
Fixpoint collect_rows (fuel : nat) (cursor : pyobj) (rows : list pyobj)
  : M (list pyobj) :=
  match fuel with
  | O => lift OutOfFuel
  | S fuel' =>
      let* payload :=
        safe_get tr games_url (page_params cursor) hs
                 default_timeout default_retries default_backoff in
      let* items := lift (page_rows payload) in
      let rows := (rows ++ items)%list in
      let* next_cursor := lift (page_next_cursor payload) in
      match next_cursor with
      | PNone => ret rows
      | _ => collect_rows fuel' next_cursor rows
      end
  end.
End Collect.

(** ** The part of pandas that [fetch_games] uses

    A frame is its column labels and its records, one per row and each a
    [dict] from column label to cell with the columns in order.  The missing
    markers [None] and [NaN] of pandas are both the cell [PNone]. *)

Record DataFrame : Type := mkFrame {
  columns : list string;
  records : list dict
}.

(** [pd.DataFrame()] *)
Definition empty_frame : DataFrame := mkFrame [] [].

Definition has_column (df : DataFrame) (c : string) : bool :=
  existsb (String.eqb c) (columns df).

Definition cell (r : dict) (c : string) : pyobj :=
  match dict_get r c with
  | Some v => v
  | None => PNone
  end.

(** [df[c]] as the list of its cells *)
Definition column (df : DataFrame) (c : string) : list pyobj :=
  map (fun r => cell r c) (records df).

Definition is_dict (o : pyobj) : bool :=
  match o with PDict _ => true | _ => false end.

(** [s.removeprefix(p)] *)
Definition removeprefix (p s : string) : string :=
  if String.prefix p s
  then String.substring (String.length p) (String.length s - String.length p) s
  else s.

(** The key of a nested field in [_normalise_json]. *)
Definition new_key (key_string k : string) : string :=
  let nk := key_string +:+ "." +:+ k in
  if String.eqb key_string "" then removeprefix "." nk else nk.

(** pandas' [_normalise_json]: the leaves of nested dicts, keyed by their
    dotted path. *)
Fixpoint normalise_json (data : pyobj) (key_string : string) (acc : dict) : dict :=
  match data with
  | PDict d =>
      (fix items (d : list (string * pyobj)) (acc : dict) : dict :=
         match d with
         | [] => acc
         | (k, v) :: d' => items d' (normalise_json v (new_key key_string k) acc)
         end) d acc
  | _ => dict_set acc key_string data
  end.

(** [{**a, **b}] *)
Definition dict_update (a b : dict) : dict :=
  fold_left (fun acc kv => dict_set acc (fst kv) (snd kv)) b a.

(** pandas' [_normalise_json_ordered]: the top-level fields that are not
    dicts first, then the flattened nested ones. *)
Definition normalise_json_ordered (d : dict) : dict :=
  let top := List.filter (fun kv => negb (is_dict (snd kv))) d in
  let nested := normalise_json (PDict (List.filter (fun kv => is_dict (snd kv)) d)) "" [] in
  dict_update top nested.

(** The labels of [ks] not yet in [seen], each once, in order. *)
Fixpoint add_labels (seen ks : list string) : list string :=
  match ks with
  | [] => seen
  | k :: ks' =>
      add_labels (if existsb (String.eqb k) seen then seen else seen ++ [k])%list ks'
  end.

(** A record laid out on the columns [cols]; an absent cell is missing. *)
Definition align (cols : list string) (r : dict) : dict :=
  map (fun c => (c, cell r c)) cols.

Fixpoint flatten_rows (rows : list pyobj) : result (list dict) :=
  match rows with
  | [] => Ok []
  | PDict d :: rows' =>
      let+ rs := flatten_rows rows' in
      Ok (normalise_json_ordered d :: rs)
  | _ :: _ => Unsupported
  end.

(** [pd.json_normalize(rows)] for a list of dicts: one record per row, the
    columns in the order the fields first appear.  Rows that are not dicts
    are outside the model. *)
Definition json_normalize (rows : list pyobj) : result DataFrame :=
  let+ rs := flatten_rows rows in
  let cols := fold_left (fun seen r => add_labels seen (dict_keys r)) rs [] in
  Ok (mkFrame cols (map (align cols) rs)).

(** Cell by cell, [r[c] = s[i]] for the [i]-th record; past the end of [s]
    the cell is missing. *)
Fixpoint assign (rs : list dict) (c : string) (s : list pyobj) : list dict :=
  match rs with
  | [] => []
  | r :: rs' => dict_set r c (hd PNone s) :: assign rs' c (tl s)
  end.

(** [df[c] = s]: a new column goes last. *)
Definition set_column (df : DataFrame) (c : string) (s : list pyobj) : DataFrame :=
  mkFrame (if has_column df c then columns df else columns df ++ [c])%list
          (assign (records df) c s).

(** [s.fillna("")] *)
Definition fillna_empty (s : list pyobj) : list pyobj :=
  map (fun v => match v with PNone => PStr "" | _ => v end) s.

(** [df.get(c, "").fillna("")]: without the column [df.get] returns the
    default, a [str], which has no [fillna]. *)
Definition get_fillna (df : DataFrame) (c : string) : result (list pyobj) :=
  if has_column df c then Ok (fillna_empty (column df c))
  else Raise (no_attribute (PStr "") "fillna").

(** [a + b] on two cells: defined on two strings. *)
Definition add_cells (a b : pyobj) : result pyobj :=
  match a, b with
  | PStr x, PStr y => Ok (PStr (x +:+ y))
  | _, _ =>
      Raise (TypeError ("unsupported operand type(s) for +: '" +:+ type_name a
                        +:+ "' and '" +:+ type_name b +:+ "'"))
  end.

(** [s + t] on two series of one frame *)
Fixpoint add_series (s t : list pyobj) : result (list pyobj) :=
  match s, t with
  | a :: s', b :: t' =>
      let+ v := add_cells a b in
      let+ vs := add_series s' t' in
      Ok (v :: vs)
  | _, _ => Ok []
  end.

(** [s + x] for a string [x] *)
Definition add_scalar (s : list pyobj) (x : string) : result (list pyobj) :=
  add_series s (map (fun _ => PStr x) s).

(** [df[cols]]: those columns only, in that order. *)
Definition select (df : DataFrame) (cols : list string) : DataFrame :=
  mkFrame cols (map (align cols) (records df)).

(** *** [sort_values] *)

(** A sort key: a string, or missing. *)
Definition sort_key (o : pyobj) : result (option string) :=
  match o with
  | PNone => Ok None
  | PStr s => Ok (Some s)
  | _ => Unsupported
  end.

(** Ascending, missing last. *)
Definition compare_key (a b : option string) : comparison :=
  match a, b with
  | Some x, Some y => String.compare x y
  | Some _, None => Lt
  | None, Some _ => Gt
  | None, None => Eq
  end.

(** The first key decides; the next ones break its ties. *)
Fixpoint compare_keys (k1 k2 : list (option string)) : comparison :=
  match k1, k2 with
  | a :: k1', b :: k2' =>
      match compare_key a b with
      | Eq => compare_keys k1' k2'
      | c => c
      end
  | _, _ => Eq
  end.

Definition keys_le (k1 k2 : list (option string)) : bool :=
  match compare_keys k1 k2 with
  | Gt => false
  | _ => true
  end.

(** The sort keys of one record, when each is a string or missing. *)
Fixpoint record_keys (by_ : list string) (r : dict) : result (list (option string)) :=
  match by_ with
  | [] => Ok []
  | c :: by' =>
      let+ k := sort_key (cell r c) in
      let+ ks := record_keys by' r in
      Ok (k :: ks)
  end.

Fixpoint keyed (by_ : list string) (rs : list dict)
  : result (list (list (option string) * dict)) :=
  match rs with
  | [] => Ok []
  | r :: rs' =>
      let+ k := record_keys by_ r in
      let+ krs := keyed by_ rs' in
      Ok ((k, r) :: krs)
  end.

Fixpoint insert_keyed (x : list (option string) * dict)
    (l : list (list (option string) * dict)) : list (list (option string) * dict) :=
  match l with
  | [] => [x]
  | y :: l' => if keys_le (fst x) (fst y) then x :: l else y :: insert_keyed x l'
  end.

(** A stable sort: records with the same keys keep their order. *)
Fixpoint sort_keyed (l : list (list (option string) * dict))
  : list (list (option string) * dict) :=
  match l with
  | [] => []
  | x :: l' => insert_keyed x (sort_keyed l')
  end.

(** The first label of [by_] that is not a column. *)
Fixpoint missing_label (df : DataFrame) (by_ : list string) : option string :=
  match by_ with
  | [] => None
  | c :: by' => if has_column df c then missing_label df by' else Some c
  end.

(** [df.sort_values(by_, ascending=True)]: a [KeyError] for a label that is
    not a column; else the records in ascending order of their keys, missing
    cells last, ties in the order they had.  Columns whose cells are neither
    strings nor missing are outside the model. *)
Definition sort_values (df : DataFrame) (by_ : list string) : result DataFrame :=
  match missing_label df by_ with
  | Some c => Raise (KeyError ("'" +:+ c +:+ "'"))
  | None =>
      let+ krs := keyed by_ (records df) in
      Ok (mkFrame (columns df) (map snd (sort_keyed krs)))
  end.

(** ** [fetch_games]: from the rows to the frame (lines 69 to 105) *)

Definition keep : list string :=
  [ "id"; "date"; "tipoff_local"; "status"; "postseason";
    "visitor_team.abbreviation"; "visitor_team_score";
    "home_team.abbreviation"; "home_team_score"; "matchup" ].

Definition opt_cell (o : option string) : pyobj :=
  match o with
  | Some s => PStr s
  | None => PNone
  end.

Section FetchGames.
Variable tr : Transport.
Variable environ : Environ.
(** [pd.to_datetime(s, errors="coerce", utc=True).dt.tz_convert(TZ)
    .dt.strftime("%Y-%m-%d %H:%M")] on a column: the local time of each
    cell as a string, or missing.  The time zone data is not part of the
    program, so the conversion is a parameter. *)
Variable local_tipoff : list pyobj -> result (list (option string)).

(** Lines 75 to 79. *)
Definition with_tipoff_local (df : DataFrame) : result DataFrame :=
  if has_column df "datetime" then
    let+ s := local_tipoff (column df "datetime") in
    Ok (set_column df "tipoff_local" (map opt_cell s))
  else
    Ok (set_column df "tipoff_local" (repeat PNone (length (records df)))).

(** Lines 81 to 85, in the order Python evaluates the sum. *)
Definition with_matchup (df : DataFrame) : result DataFrame :=
  let+ v := get_fillna df "visitor_team.full_name" in
  let+ a := add_scalar v " @ " in
  let+ h := get_fillna df "home_team.full_name" in
  let+ m := add_series a h in
  Ok (set_column df "matchup" m).

(** Lines 72 to 99: the frame with its derived columns, cut down to the
    columns of [keep]. *)
Definition prepare_frame (rows : list pyobj) : result DataFrame :=
  let+ df := json_normalize rows in
  let+ df := with_tipoff_local df in
  let+ df := with_matchup df in
  Ok (select df (List.filter (has_column df) keep)).

(** Lines 72 to 105. *)
Definition normalize (rows : list pyobj) : result DataFrame :=
  let+ df := prepare_frame rows in
  let sort_cols :=
    ("date" :: (if has_column df "tipoff_local" then ["tipoff_local"] else []))%list in
  sort_values df sort_cols.

Definition fetch_games (start_date end_date : date) (per_page : Z) (fuel : nat)
  : M DataFrame :=
  let* hs := bdl_headers environ in
  let* rows := collect_rows tr start_date end_date per_page hs fuel (PInt 0) [] in
  match rows with
  | [] => ret empty_frame
  | _ => lift (normalize rows)
  end.
End FetchGames.

(** ** [st.cache_data(ttl=600)] around [fetch_games] *)

#[global] Instance date_eq_dec : EqDecision date.
Proof. solve_decision. Defined.

#[global] Instance date_countable : Countable date :=
  inj_countable'
    (fun d => (year d, month d, day d))
    (fun t => mkDate t.1.1 t.1.2 t.2)
    (fun d => match d with mkDate _ _ _ => eq_refl end).

(** A memoized result and the time, in seconds, it was computed at. *)
Record CacheEntry : Type := mkEntry {
  cached : DataFrame;
  stored_at : Q
}.

(** [ttl=60 * 10] *)
Definition ttl : Q := 60 * 10.

(** An entry is served while [now < stored_at + ttl]. *)
Definition fresh (now : Q) (e : CacheEntry) : bool :=
  negb (Qle_bool (stored_at e + ttl) now).

Section Cached.
Variable tr : Transport.
Variable environ : Environ.
Variable local_tipoff : list pyobj -> result (list (option string)).

(** A call at time [now] of the decorated function: a fresh entry for
    the arguments is returned as it is; otherwise the body runs, and what
    it returns is stored under the arguments.  A raised exception stores
    nothing. *)
Definition fetch_games_cached (now : Q) (start_date end_date : date)
    (per_page : Z) (fuel : nat)
    (cache : gmap (date * date * Z) CacheEntry) (w : World)
  : result DataFrame * gmap (date * date * Z) CacheEntry * World :=
  let key := (start_date, end_date, per_page) in
  let compute :=
    match fetch_games tr environ local_tipoff start_date end_date per_page fuel w with
    | (Ok df, w') => (Ok df, <[key := mkEntry df now]> cache, w')
    | (r, w') => (r, cache, w')
    end in
  match cache !! key with
  | Some e => if fresh now e then (Ok (cached e), cache, w) else compute
  | None => compute
  end.
End Cached.

(** * Vocabulary of the specification *)

(** ** Attempts *)

(** An attempt fails when [requests.get] raises, the status is 429, the
    status makes [raise_for_status] raise, or the body does not decode. *)
Definition fails (u : string) (a : Attempt) : Prop :=
  match a with
  | Raises _ => True
  | Responds r =>
      status_code r = 429 \/ http_error u r <> None \/ (exists e, json r = inl e)
  end.

(** The exception an attempt leaves in [last_err], if any: a 429 leaves
    none. *)
Definition recorded_error (u : string) (a : Attempt) : option exn :=
  match a with
  | Raises e => Some e
  | Responds r =>
      if status_code r =? 429 then None
      else match http_error u r with
           | Some e => Some e
           | None => match json r with inl e => Some e | inr _ => None end
           end
  end.


(** A 2xx response whose body decodes to [v]. *)
Definition succeeds_with (a : Attempt) (v : pyobj) : Prop :=
  exists r, a = Responds r /\ 200 <= status_code r < 300 /\ json r = inr v.

(** The attempts [tr] answers from world [w] on, when each carries [req]. *)
Definition attempts_from (tr : Transport) (w : World) (req : Request) (n : nat)
  : list Attempt :=
  map (fun i => tr (length (sent w) + i)%nat req) (seq 0 n).

(** ** Pages *)

(** [pages_chain pages rowss cursors]: the payloads [pages] hold the rows
    [rowss], page by page; every page but the last names a next cursor, and
    these are [cursors] in order; the last page names none. *)
Inductive pages_chain : list pyobj -> list (list pyobj) -> list pyobj -> Prop :=
  | chain_last p rows :
      page_rows p = Ok rows ->
      page_next_cursor p = Ok PNone ->
      pages_chain [p] [rows] []
  | chain_next p rows c pages rowss cursors :
      page_rows p = Ok rows ->
      page_next_cursor p = Ok c ->
      c <> PNone ->
      pages_chain pages rowss cursors ->
      pages_chain (p :: pages) (rows :: rowss) (c :: cursors).

(** From world [w] on, the upstream answers the [k]-th request with a 2xx
    response carrying the [k]-th page. *)
Definition serves (tr : Transport) (w : World) (pages : list pyobj) : Prop :=
  forall (k : nat) (p : pyobj) (req : Request),
    nth_error pages k = Some p ->
    succeeds_with (tr (length (sent w) + k)%nat req) p.

(** The [cursor] parameter of a request. *)
Definition cursor_of (req : Request) : pyobj := cell (params req) "cursor".

(** The page has no usable [meta.next_cursor]: [meta] is absent, null, or
    an object without the field. *)
Definition no_next_cursor (d : dict) : Prop :=
  dict_get d "meta" = None
  \/ dict_get d "meta" = Some PNone
  \/ exists m, dict_get d "meta" = Some (PDict m) /\ dict_get m "next_cursor" = None.

(** ** Sample inputs *)


(** A body that is not JSON. *)
Definition not_json : exn + pyobj :=
  inl (Exn "JSONDecodeError" "Expecting value: line 1 column 1 (char 0)").

(** A transport that never succeeds: a refused connection, a 503, a 200
    with a body that is not JSON, then 429s. *)
Definition failing_transport : Transport :=
  fun n _ =>
    match n with
    | 0%nat => Raises (Exn "ConnectionError" "connection refused")
    | 1%nat => Responds (mkResponse 503 "Service Unavailable" not_json)
    | 2%nat => Responds (mkResponse 200 "OK" not_json)
    | _ => Responds (mkResponse 429 "Too Many Requests" not_json)
    end.


Definition sample_environ : Environ :=
  fun k => if String.eqb k "BALLDONTLIE_API_KEY" then Some "key" else None.

(** A stand-in for the time zone conversion: the first 16 characters of a
    string cell, nothing for any other cell. *)
Definition sample_local_tipoff (s : list pyobj) : result (list (option string)) :=
  Ok (map (fun c => match c with
                    | PStr x => Some (String.substring 0 16 x)
                    | _ => None
                    end) s).

Definition ok_200 (v : pyobj) : Attempt := Responds (mkResponse 200 "OK" (inr v)).

Definition team (full_name abbreviation : string) : pyobj :=
  PDict [("full_name", PStr full_name); ("abbreviation", PStr abbreviation)].

Definition game (id : Z) (date_ datetime_ : string) (visitor home : pyobj) : pyobj :=
  PDict [("id", PInt id); ("date", PStr date_); ("datetime", PStr datetime_);
         ("status", PStr "Final"); ("postseason", PBool false);
         ("visitor_team", visitor); ("visitor_team_score", PInt 101);
         ("home_team", home); ("home_team_score", PInt 99)].

Definition g1 : pyobj :=
  game 1 "2024-03-02" "2024-03-02T20:00:00Z" (team "Boston Celtics" "BOS") (team "Miami Heat" "MIA").
Definition g2 : pyobj :=
  game 2 "2024-03-01" "2024-03-01T21:30:00Z" (team "Utah Jazz" "UTA") (team "Chicago Bulls" "CHI").
Definition g3 : pyobj :=
  game 3 "2024-03-01" "2024-03-01T19:00:00Z" (team "Denver Nuggets" "DEN") (team "Phoenix Suns" "PHX").

Definition page (rows : list pyobj) (next_cursor : pyobj) : pyobj :=
  PDict [("data", PList rows); ("meta", PDict [("next_cursor", next_cursor)])].

(** The example of the specification: two pages, [g1; g2] then [g3]. *)
Definition two_pages : list pyobj := [page [g1; g2] (PStr "c1"); page [g3] PNone].

Definition two_page_upstream : Transport :=
  fun n _ => ok_200 (nth n two_pages (page [] PNone)).

(** An upstream that names cursor 0 as the next cursor of every page. *)
Definition stuck_upstream : Transport :=
  fun _ _ => ok_200 (page [] (PInt 0)).

(** A payload with no [data] and a null [meta]. *)
Definition bare_payload : dict := [("meta", PNone)].

Definition bare_upstream : Transport := fun _ _ => ok_200 (PDict bare_payload).

(** ** Order of the result *)

(** Records with their sort keys, ordered by the keys. *)
Definition keyed_le (x y : list (option string) * dict) : Prop :=
  keys_le (fst x) (fst y) = true.

(** Tipoff strings ascending; a record without one comes after those that
    have one, and two records without one are not ordered by it. *)
Definition tipoff_le (t1 t2 : pyobj) : Prop :=
  match t1, t2 with
  | PStr a, PStr b => String.leb a b = true
  | PStr _, PNone => True
  | PNone, PNone => True
  | _, _ => False
  end.

(** [r1] may come before [r2]: an earlier date, or the same date and a
    tipoff that is not later.  Dates compare as their strings do; a record
    without a date comes last. *)
Definition game_le (r1 r2 : dict) : Prop :=
  match cell r1 "date", cell r2 "date" with
  | PStr d1, PStr d2 =>
      String.ltb d1 d2 = true
      \/ (d1 = d2 /\ tipoff_le (cell r1 "tipoff_local") (cell r2 "tipoff_local"))
  | PStr _, PNone => True
  | PNone, PNone => tipoff_le (cell r1 "tipoff_local") (cell r2 "tipoff_local")
  | _, _ => False
  end.

(** ** Dates of the rows *)

(** The [date] cell [json_normalize] gives a row. *)
Definition row_date (row : pyobj) : pyobj :=
  match row with
  | PDict d => cell (normalise_json_ordered d) "date"
  | _ => PNone
  end.

(** The cell is a string whose first ten characters, the calendar date,
    lie between the ISO forms of [start_date] and [end_date]. *)
Definition date_in_range (start_date end_date : date) (v : pyobj) : bool :=
  match v with
  | PStr s =>
      let d := String.substring 0 10 s in
      String.leb (isoformat start_date) d && String.leb d (isoformat end_date)
  | _ => false
  end.

(** [start_date <= end_date] *)
Definition date_le (a b : date) : Prop :=
  year a < year b
  \/ (year a = year b /\ (month a < month b \/ (month a = month b /\ day a <= day b))).

Definition march_1 : date := mkDate 2024 3 1.
Definition march_7 : date := mkDate 2024 3 7.

(** What [fetch_games] gives on the two pages of the example. *)
Definition two_page_run : result DataFrame * World :=
  fetch_games two_page_upstream sample_environ sample_local_tipoff
              march_1 march_7 100 2 world0.

Definition two_page_frame : DataFrame :=
  Eval vm_compute in
    match fst two_page_run with
    | Ok df => df
    | _ => empty_frame
    end.

(** A game played outside the week that is asked for. *)
Definition stray_game : pyobj :=
  game 9 "2023-12-25" "2023-12-25T20:00:00Z"
       (team "Los Angeles Lakers" "LAL") (team "Golden State Warriors" "GSW").

Definition stray_upstream : Transport :=
  fun _ _ => ok_200 (page [stray_game] PNone).

(** Rows without [datetime] and [postseason]. *)
Definition plain_game (id : Z) (date_ : string) : pyobj :=
  PDict [("id", PInt id); ("date", PStr date_); ("status", PStr "Final");
         ("season", PInt 2023);
         ("visitor_team", team "Utah Jazz" "UTA"); ("visitor_team_score", PInt 90);
         ("home_team", team "Chicago Bulls" "CHI"); ("home_team_score", PInt 95)].

Definition plain_upstream : Transport :=
  fun _ _ => ok_200 (page [plain_game 5 "2024-03-03"; plain_game 4 "2024-03-02"] PNone).

Definition plain_run : result DataFrame * World :=
  fetch_games plain_upstream sample_environ sample_local_tipoff
              march_1 march_7 100 1 world0.

Definition plain_frame : DataFrame :=
  Eval vm_compute in
    match fst plain_run with
    | Ok df => df
    | _ => empty_frame
    end.

(** A row whose teams have no [full_name], and one where it is null. *)
Definition nameless_game : pyobj :=
  PDict [("id", PInt 7); ("date", PStr "2024-03-01");
         ("visitor_team", PDict [("abbreviation", PStr "BOS")]);
         ("home_team", PDict [("abbreviation", PStr "MIA")])].

Definition null_name_game : pyobj :=
  PDict [("id", PInt 8); ("date", PStr "2024-03-02");
         ("visitor_team", PDict [("full_name", PNone); ("abbreviation", PStr "BOS")]);
         ("home_team", PDict [("full_name", PNone); ("abbreviation", PStr "MIA")])].

(** No row of the response has a [full_name]. *)
Definition nameless_upstream : Transport :=
  fun _ _ => ok_200 (page [nameless_game] PNone).

(** Rows without names next to a row that has them. *)
Definition mixed_upstream : Transport :=
  fun _ _ => ok_200 (page [g1; nameless_game; null_name_game] PNone).

(** * Further vocabulary *)

(** ** Attempts, as [safe_get] tells them apart *)

(** The attempt makes [safe_get] return [v]: a response that is not a 429,
    that [raise_for_status] accepts and whose body decodes to [v]. *)
Definition returns_body (u : string) (a : Attempt) (v : pyobj) : Prop :=
  exists r,
    a = Responds r /\ status_code r <> 429 /\ http_error u r = None /\ json r = inr v.



(** ** Pages *)

(** Pages that each name a next cursor: the payloads, their rows and their
    next cursors. *)
Inductive open_chain : list pyobj -> list (list pyobj) -> list pyobj -> Prop :=
  | open_nil : open_chain [] [] []
  | open_cons p rows c pages rowss cursors :
      page_rows p = Ok rows ->
      page_next_cursor p = Ok c ->
      c <> PNone ->
      open_chain pages rowss cursors ->
      open_chain (p :: pages) (rows :: rowss) (c :: cursors).

(** Objects that [list.extend] cannot iterate over. *)
Definition not_iterable (v : pyobj) : Prop :=
  match v with
  | PNone | PBool _ | PInt _ | PFloat _ => True
  | _ => False
  end.

(** An environment with only the misspelled variable set. *)
Definition fallback_environ : Environ :=
  fun k => if String.eqb k "BALDONTLIE_API_KEY" then Some "spare" else None.

(** An environment without a key: one variable unset, the other empty. *)
Definition keyless_environ : Environ :=
  fun k => if String.eqb k "BALLDONTLIE_API_KEY" then Some "" else None.

(** One page served, then failures only. *)
Definition breaking_upstream : Transport :=
  fun n _ =>
    match n with
    | 0%nat => ok_200 (page [g1; g2] (PStr "c1"))
    | _ => Responds (mkResponse 500 "Internal Server Error" not_json)
    end.

Definition payload_upstream (payload : pyobj) : Transport :=
  fun _ _ => ok_200 payload.

(** ** Records *)



(** Rows without a [date]. *)
Definition dateless_game : pyobj :=
  PDict [("id", PInt 11); ("status", PStr "Final");
         ("visitor_team", team "Utah Jazz" "UTA");
         ("home_team", team "Chicago Bulls" "CHI")].

Definition dateless_upstream : Transport :=
  fun _ _ => ok_200 (page [dateless_game] PNone).

(** Two pages without rows. *)
Definition empty_pages : list pyobj := [page [] (PInt 25); page [] PNone].

Definition empty_upstream : Transport :=
  fun n _ => ok_200 (nth n empty_pages (page [] PNone)).

(** A time zone conversion that always fails. *)
Definition broken_local_tipoff (s : list pyobj) : result (list (option string)) :=
  Raise (Exn "ZoneInfoNotFoundError" "No time zone found with key Europe/Madrid").

(** ** Date arithmetic of [datetime], and [week_bounds] *)

Definition OverflowError := Exn "OverflowError".

(** [_is_leap] *)
Definition is_leap (y : Z) : bool :=
  (y mod 4 =? 0) && (negb (y mod 100 =? 0) || (y mod 400 =? 0)).

(** [_days_before_year]: the days before 1 January of year [y]. *)
Definition days_before_year (y : Z) : Z :=
  let y := y - 1 in
  y * 365 + y / 4 - y / 100 + y / 400.

Definition DAYS_IN_MONTH : list Z :=
  [-1; 31; 28; 31; 30; 31; 30; 31; 31; 30; 31; 30; 31].

Definition DAYS_BEFORE_MONTH : list Z :=
  [-1; 0; 31; 59; 90; 120; 151; 181; 212; 243; 273; 304; 334].

(** [_days_in_month] *)
Definition days_in_month (y m : Z) : Z :=
  if (m =? 2) && is_leap y then 29 else nth (Z.to_nat m) DAYS_IN_MONTH 0.

(** [_days_before_month] *)
Definition days_before_month (y m : Z) : Z :=
  nth (Z.to_nat m) DAYS_BEFORE_MONTH 0 + (if (2 <? m) && is_leap y then 1 else 0).

(** [_ymd2ord]: 1 January of year 1 is day 1. *)
Definition ymd2ord (y m d : Z) : Z :=
  days_before_year y + days_before_month y m + d.

(** [d.toordinal()] *)
Definition toordinal (d : date) : Z := ymd2ord (year d) (month d) (day d).

(** [_ord2ymd], as in the Python source of [datetime]. *)
Definition ord2ymd (n : Z) : date :=
  let n := n - 1 in
  let n400 := n / 146097 in
  let n := n mod 146097 in
  let y := n400 * 400 + 1 in
  let n100 := n / 36524 in
  let n := n mod 36524 in
  let n4 := n / 1461 in
  let n := n mod 1461 in
  let n1 := n / 365 in
  let n := n mod 365 in
  let y := y + n100 * 100 + n4 * 4 + n1 in
  if (n1 =? 4) || (n100 =? 4) then mkDate (y - 1) 12 31
  else
    let leapyear := (n1 =? 3) && (negb (n4 =? 24) || (n100 =? 3)) in
    let m := Z.shiftr (n + 50) 5 in
    let preceding :=
      nth (Z.to_nat m) DAYS_BEFORE_MONTH 0 + (if (2 <? m) && leapyear then 1 else 0) in
    if n <? preceding then
      let m := m - 1 in
      let preceding :=
        preceding
        - (nth (Z.to_nat m) DAYS_IN_MONTH 0 + (if (m =? 2) && leapyear then 1 else 0)) in
      mkDate y m (n - preceding + 1)
    else mkDate y m (n - preceding + 1).

(** [date.max.toordinal()], the ordinal of 31 December 9999 *)
Definition MAXORDINAL : Z := 3652059.

(** [d.weekday()]: Monday is 0 and Sunday is 6. *)
Definition weekday (d : date) : Z := (toordinal d + 6) mod 7.

(** [d + timedelta(days=k)]: an OverflowError outside [date.min, date.max]. *)
Definition add_days (d : date) (k : Z) : result date :=
  let o := toordinal d + k in
  if (0 <? o) && (o <=? MAXORDINAL) then Ok (ord2ymd o)
  else Raise (OverflowError "date value out of range").

(** [week_bounds] (lines 15 to 18); [d - timedelta(days=k)] is
    [d + timedelta(days=-k)]. *)
Definition week_bounds (d : date) : result (date * date) :=
  let+ monday := add_days d (- weekday d) in
  let+ sunday := add_days monday 6 in
  Ok (monday, sunday).

(** The dates [date(y, m, d)] accepts. *)
Definition valid_date (d : date) : Prop :=
  1 <= year d <= 9999
  /\ 1 <= month d <= 12
  /\ 1 <= day d <= days_in_month (year d) (month d).

Definition valid_dateb (d : date) : bool :=
  (1 <=? year d) && (year d <=? 9999)
  && (1 <=? month d) && (month d <=? 12)
  && (1 <=? day d) && (day d <=? days_in_month (year d) (month d)).

(** [ord2ymd] inverts [toordinal] at [n], into a date of the first 400
    years. *)
Definition cycle_ok (n : Z) : bool :=
  let d := ord2ymd n in
  (toordinal d =? n) && valid_dateb d && (year d <=? 400).

(** [cycle_ok] on [count] ordinals from [n] on. *)
Fixpoint cycle_ok_from (count : nat) (n : Z) : bool :=
  match count with
  | O => true
  | S count' => if cycle_ok n then cycle_ok_from count' (n + 1) else false
  end.

(** * Properties *)

Example str_int_examples : str_int 4 = "4" /\ str_int 0 = "0" /\ str_int 120 = "120".
Proof. repeat split; reflexivity. Qed.

Example isoformat_example : isoformat (mkDate 2024 3 7) = "2024-03-07".
Proof. reflexivity. Qed.

(** ** [safe_get] *)

Lemma pow_nonneg backoff i : (0 <= backoff)%Q -> Qle_bool 0 (pow backoff i) = true.
Proof. intros H. apply Qle_bool_iff. unfold pow. by apply Qpower_0_le. Qed.

Lemma attempts_from_S tr w req n :
  attempts_from tr w req (S n) =
  tr (length (sent w)) req
    :: attempts_from tr (mkWorld (sent w ++ [req]) (slept w)) req n.
Proof.
  unfold attempts_from. cbn [seq List.map sent].
  rewrite Nat.add_0_r. f_equal.
  rewrite <- seq_shift, List.map_map.
  apply List.map_ext. intros i. rewrite length_app. cbn. f_equal. lia.
Qed.

Section SafeGetFacts.
Variable tr : Transport.
Variables (u : string) (ps : dict) (hs : list (string * string)).
Variables (tmo retries : Z) (backoff : Q).

Let req := mkRequest u ps hs tmo.
Let final (e : option exn) : exn :=
  RuntimeError ("Request failed after " +:+ str_int retries
                +:+ " tries: " +:+ str_opt_exn e).

(** A failing attempt sleeps [backoff ** i] and goes on with the rest of
    the range. *)
Lemma safe_get_for_fail_step i range e w :
  (0 <= backoff)%Q ->
  fails u (tr (length (sent w)) req) ->
  safe_get_for tr u ps hs tmo retries backoff (i :: range) e w =
  safe_get_for tr u ps hs tmo retries backoff range
    (match recorded_error u (tr (length (sent w)) req) with
     | Some e' => Some e'
     | None => e
     end)
    (mkWorld (sent w ++ [req]) (slept w ++ [pow backoff i])).
Proof using Type.
  intros Hb Hf. cbn [safe_get_for]. unfold safe_get_try, bind, requests_get.
  fold req. unfold recorded_error, fails in *.
  destruct (tr (length (sent w)) req) as [e'|r].
  - unfold time_sleep. cbn. by rewrite pow_nonneg.
  - destruct (status_code r =? 429) eqn:E429.
    + unfold time_sleep, ret. cbn. by rewrite pow_nonneg.
    + unfold raise_for_status.
      destruct (http_error u r) as [e'|] eqn:Eh.
      * unfold raise, time_sleep. cbn. by rewrite pow_nonneg.
      * unfold ret, response_json.
        destruct Hf as [H|[H|[e' H]]]; [lia|done|].
        rewrite H. unfold raise, time_sleep. cbn. by rewrite pow_nonneg.
Qed.

Lemma safe_get_for_all_fail n : forall a e w,
  (0 <= backoff)%Q ->
  Forall (fails u) (attempts_from tr w req n) ->
  safe_get_for tr u ps hs tmo retries backoff (seq a n) e w =
  (Raise (final (fold_left
                   (fun acc x => match recorded_error u x with
                                 | Some e' => Some e'
                                 | None => acc
                                 end)
                   (attempts_from tr w req n) e)),
   mkWorld (sent w ++ repeat req n) (slept w ++ List.map (pow backoff) (seq a n))).
Proof using Type.
  induction n as [|n IH]; intros a e w Hb Hall.
  - cbn. unfold raise. destruct w. cbn. by rewrite !app_nil_r.
  - rewrite attempts_from_S in Hall |- *. inversion Hall as [|? ? Hf Hrest]; subst.
    cbn [seq]. rewrite safe_get_for_fail_step by done.
    rewrite IH by done. cbn [sent slept List.map fold_left repeat].
    by rewrite <- !app_assoc.
Qed.

(** A 2xx response that decodes ends the loop at once. *)
Lemma safe_get_for_success_step i range e w v :
  succeeds_with (tr (length (sent w)) req) v ->
  safe_get_for tr u ps hs tmo retries backoff (i :: range) e w =
  (Ok v, mkWorld (sent w ++ [req]) (slept w)).
Proof using Type.
  intros (r & Hr & Hs & Hj). cbn [safe_get_for].
  unfold safe_get_try, bind, requests_get. fold req. rewrite Hr.
  replace (status_code r =? 429) with false by (symmetry; apply Z.eqb_neq; lia).
  unfold raise_for_status, http_error.
  replace (400 <=? status_code r) with false by (symmetry; apply Z.leb_gt; lia).
  replace (500 <=? status_code r) with false by (symmetry; apply Z.leb_gt; lia).
  cbn. unfold response_json. by rewrite Hj.
Qed.

End SafeGetFacts.







(** ** The collection loop *)

Lemma succeeds_not_fails_first tr u ps hs tmo w v :
  succeeds_with (tr (length (sent w)) (mkRequest u ps hs tmo)) v ->
  safe_get tr u ps hs tmo default_retries default_backoff w =
  (Ok v, mkWorld (sent w ++ [mkRequest u ps hs tmo]) (slept w)).
Proof.
  intros H. unfold safe_get. cbn [default_retries Z.to_nat Pos.to_nat Pos.iter_op seq].
  by apply safe_get_for_success_step.
Qed.

Lemma serves_tail tr w p pages req :
  serves tr w (p :: pages) ->
  serves tr (mkWorld (sent w ++ [req]) (slept w)) pages.
Proof.
  intros H k q r Hk. cbn [sent]. rewrite length_app. cbn [length].
  replace (length (sent w) + 1 + k)%nat with (length (sent w) + S k)%nat by lia.
  by apply H.
Qed.

Lemma serves_head tr w p pages req :
  serves tr w (p :: pages) -> succeeds_with (tr (length (sent w)) req) p.
Proof.
  intros H. specialize (H 0%nat p req eq_refl). by rewrite Nat.add_0_r in H.
Qed.

Section CollectFacts.
Variable tr : Transport.
Variables (start_date end_date : date) (per_page : Z).
Variable hs : list (string * string).

Let request_for (c : pyobj) : Request :=
  mkRequest games_url (page_params start_date end_date per_page c) hs default_timeout.

(** One turn of the loop, once [safe_get] has returned a payload. *)
Lemma collect_rows_turn fuel cursor rows w w1 payload items next :
  safe_get tr games_url (page_params start_date end_date per_page cursor) hs
           default_timeout default_retries default_backoff w = (Ok payload, w1) ->
  page_rows payload = Ok items ->
  page_next_cursor payload = Ok next ->
  collect_rows tr start_date end_date per_page hs (S fuel) cursor rows w =
  match next with
  | PNone => (Ok (rows ++ items)%list, w1)
  | _ => collect_rows tr start_date end_date per_page hs fuel next
           (rows ++ items)%list w1
  end.
Proof using Type.
  intros Hs Hr Hn. cbn [collect_rows]. unfold bind at 1. rewrite Hs.
  unfold bind, lift. rewrite Hr, Hn. by destruct next.
Qed.

(** The same when the page is served at the first attempt. *)
Lemma collect_rows_served fuel cursor rows w payload items next :
  succeeds_with (tr (length (sent w)) (request_for cursor)) payload ->
  page_rows payload = Ok items ->
  page_next_cursor payload = Ok next ->
  collect_rows tr start_date end_date per_page hs (S fuel) cursor rows w =
  let w' := mkWorld (sent w ++ [request_for cursor]) (slept w) in
  match next with
  | PNone => (Ok (rows ++ items)%list, w')
  | _ => collect_rows tr start_date end_date per_page hs fuel next
           (rows ++ items)%list w'
  end.
Proof using Type.
  intros Hs Hr Hn. eapply collect_rows_turn; [|done|done].
  by apply succeeds_not_fails_first.
Qed.

Lemma collect_rows_chain pages rowss cursors :
  pages_chain pages rowss cursors ->
  forall fuel cursor rows w,
    serves tr w pages ->
    (length pages <= fuel)%nat ->
    collect_rows tr start_date end_date per_page hs fuel cursor rows w =
    (Ok (rows ++ concat rowss)%list,
     mkWorld (sent w ++ List.map request_for (cursor :: cursors)) (slept w)).
Proof using Type.
  induction 1 as [p prow Hr Hn|p prow c pages rowss cursors Hr Hn Hc Hch IH];
    intros fuel cursor rows w Hs Hf.
  - destruct fuel as [|fuel]; [cbn in Hf; lia|].
    rewrite (collect_rows_served _ _ _ _ p prow PNone);
      [|by eapply serves_head|done|done].
    cbn. by rewrite app_nil_r.
  - destruct fuel as [|fuel]; [cbn in Hf; lia|].
    rewrite (collect_rows_served _ _ _ _ p prow c);
      [|by eapply serves_head|done|done].
    cbn zeta. rewrite IH; [|by eapply serves_tail|cbn in Hf; lia].
    cbn [sent slept List.map concat]. rewrite <- !app_assoc.
    by destruct c.
Qed.
End CollectFacts.

Lemma pages_chain_length pages rowss cursors :
  pages_chain pages rowss cursors ->
  length pages = S (length cursors) /\ length rowss = length pages.
Proof. induction 1; cbn; lia. Qed.

Lemma fetch_games_world tr environ local_tipoff start_date end_date per_page fuel w hs :
  bdl_headers environ w = (Ok hs, w) ->
  snd (fetch_games tr environ local_tipoff start_date end_date per_page fuel w) =
  snd (collect_rows tr start_date end_date per_page hs fuel (PInt 0) [] w).
Proof.
  intros Hh. unfold fetch_games, bind. rewrite Hh.
  destruct (collect_rows _ _ _ _ _ _ _ _ _) as [[rows| | |] w']; try done.
  cbn. by destruct rows.
Qed.

Lemma sample_headers w : bdl_headers sample_environ w = (Ok [("Authorization", "key")], w).
Proof. reflexivity. Qed.

Lemma two_pages_chain : pages_chain two_pages [[g1; g2]; [g3]] [PStr "c1"].
Proof. unfold two_pages. apply chain_next; [done|done|done|]. by apply chain_last. Qed.

Lemma two_pages_served : serves two_page_upstream world0 two_pages.
Proof.
  intros k p req Hk. unfold two_page_upstream, ok_200. cbn [sent world0 length Nat.add].
  rewrite (nth_error_nth _ _ _ Hk).
  eexists. split; [reflexivity|]. cbn [status_code json]. split; [lia|done].
Qed.

(** C1. When the upstream serves N pages, each at the first attempt, whose
    next cursors chain c1, ..., c(N-1) and then null, the loop of
    [fetch_games] returns with N requests sent and no more: the first with
    cursor 0, each later one with the next cursor of the page before.  The
    rows it has accumulated, before any sorting, are the rows of the pages
    one after the other in upstream order, each page once. *)
Theorem fetch_games_pagination_complete
    (tr : Transport) (environ : Environ)
    (local_tipoff : list pyobj -> result (list (option string)))
    (start_date end_date : date) (per_page : Z) (hs : list (string * string))
    (pages : list pyobj) (rowss : list (list pyobj)) (cursors : list pyobj)
    (fuel : nat) (w : World) :
  bdl_headers environ w = (Ok hs, w) ->
  pages_chain pages rowss cursors ->
  serves tr w pages ->
  (length pages <= fuel)%nat ->
  exists w',
    collect_rows tr start_date end_date per_page hs fuel (PInt 0) [] w =
      (Ok (concat rowss), w')
    /\ snd (fetch_games tr environ local_tipoff start_date end_date per_page fuel w) = w'
    /\ sent w' =
         (sent w ++
          List.map (fun c => mkRequest games_url
                               (page_params start_date end_date per_page c)
                               hs default_timeout)
                   (PInt 0 :: cursors))%list
    /\ length (sent w') = (length (sent w) + length pages)%nat
    /\ slept w' = slept w.
Proof.
  intros Hh Hch Hs Hf. eexists.
  pose proof (collect_rows_chain tr start_date end_date per_page hs _ _ _ Hch
                fuel (PInt 0) [] w Hs Hf) as E.
  split; [exact E|]. split; [|split; [reflexivity|split; [|reflexivity]]].
  - by rewrite (fetch_games_world _ _ _ _ _ _ _ _ hs), E.
  - cbn [sent]. rewrite length_app, length_map.
    destruct (pages_chain_length _ _ _ Hch) as [-> _]. done.
Qed.

Lemma fetch_games_pagination_complete_witness :
  exists w',
    collect_rows two_page_upstream (mkDate 2024 3 1) (mkDate 2024 3 7) 100
                 [("Authorization", "key")] 2 (PInt 0) [] world0 =
      (Ok [g1; g2; g3], w')
    /\ snd (fetch_games two_page_upstream sample_environ sample_local_tipoff
                        (mkDate 2024 3 1) (mkDate 2024 3 7) 100 2 world0) = w'
    /\ List.map cursor_of (sent w') = [PInt 0; PStr "c1"]
    /\ length (sent w') = 2%nat
    /\ slept w' = [].
Proof.
  destruct (fetch_games_pagination_complete two_page_upstream sample_environ
              sample_local_tipoff (mkDate 2024 3 1) (mkDate 2024 3 7) 100
              [("Authorization", "key")] two_pages [[g1; g2]; [g3]] [PStr "c1"]
              2 world0 (sample_headers world0) two_pages_chain two_pages_served
              (le_n 2))
    as (w' & E & Ef & Hs & Hl & Hz).
  exists w'. split; [exact E|]. split; [exact Ef|].
  split; [by rewrite Hs|]. split; [exact Hl|exact Hz].
Defined.

(** ** Cursors *)

Lemma stuck_upstream_loops start_date end_date per_page hs :
  forall fuel rows w,
    fst (collect_rows stuck_upstream start_date end_date per_page hs fuel
                      (PInt 0) rows w) = OutOfFuel.
Proof.
  induction fuel as [|fuel IH]; intros rows w; [done|].
  assert (Hs : succeeds_with
                 (stuck_upstream (length (sent w))
                    (mkRequest games_url
                       (page_params start_date end_date per_page (PInt 0))
                       hs default_timeout))
                 (page [] (PInt 0))).
  { eexists. split; [reflexivity|]. cbn. split; [lia|done]. }
  rewrite (collect_rows_served _ _ _ _ _ _ _ _ _ _ [] (PInt 0) Hs eq_refl eq_refl).
  cbn zeta. apply IH.
Qed.

(** Counterexample to the cursor invariant as stated: an upstream that
    names cursor 0 as the next cursor of every page is sent cursor 0 again
    and again, and the loop returns for no amount of fuel. *)
Lemma fetch_games_repeats_cursor :
  let run fuel :=
    fetch_games stuck_upstream sample_environ sample_local_tipoff
                (mkDate 2024 3 1) (mkDate 2024 3 7) 100 fuel world0 in
  List.map cursor_of (sent (snd (run 3%nat))) = [PInt 0; PInt 0; PInt 0]
  /\ ~ List.NoDup (List.map cursor_of (sent (snd (run 3%nat))))
  /\ forall fuel, fst (run fuel) = OutOfFuel.
Proof.
  cbn zeta. split; [reflexivity|]. split.
  - intros H. vm_compute in H. inversion H as [|? ? Hin _]. apply Hin. by left.
  - intros fuel. unfold fetch_games, bind. cbn [bdl_headers sample_environ].
    rewrite sample_headers.
    pose proof (stuck_upstream_loops (mkDate 2024 3 1) (mkDate 2024 3 7) 100
                  [("Authorization", "key")] fuel [] world0) as H.
    destruct (collect_rows _ _ _ _ _ _ _ _ _) as [[rows| | |] w']; cbn in H; done.
Qed.

(** C2, amended. The first request of a run carries cursor 0 and each later
    one the next cursor of the page before it; [fetch_games] keeps no record
    of the cursors it has sent.  So when the upstream serves N pages, each
    at the first attempt, whose cursors 0, c1, ..., c(N-1) are pairwise
    distinct, no cursor value is sent twice and the loop returns after N
    requests. *)
Theorem fetch_games_distinct_cursors
    (tr : Transport) (environ : Environ)
    (local_tipoff : list pyobj -> result (list (option string)))
    (start_date end_date : date) (per_page : Z) (hs : list (string * string))
    (pages : list pyobj) (rowss : list (list pyobj)) (cursors : list pyobj)
    (fuel : nat) (w : World) :
  bdl_headers environ w = (Ok hs, w) ->
  pages_chain pages rowss cursors ->
  serves tr w pages ->
  (length pages <= fuel)%nat ->
  List.NoDup (PInt 0 :: cursors) ->
  exists rows new,
    fst (collect_rows tr start_date end_date per_page hs fuel (PInt 0) [] w) = Ok rows
    /\ sent (snd (fetch_games tr environ local_tipoff start_date end_date
                              per_page fuel w)) = (sent w ++ new)%list
    /\ List.map cursor_of new = PInt 0 :: cursors
    /\ length new = length pages
    /\ List.NoDup (List.map cursor_of new).
Proof.
  intros Hh Hch Hs Hf Hnd.
  pose proof (collect_rows_chain tr start_date end_date per_page hs _ _ _ Hch
                fuel (PInt 0) [] w Hs Hf) as E.
  eexists. eexists. split; [by rewrite E|].
  split; [by rewrite (fetch_games_world _ _ _ _ _ _ _ _ hs), E|].
  assert (Hc : List.map cursor_of
                 (List.map (fun c => mkRequest games_url
                              (page_params start_date end_date per_page c)
                              hs default_timeout) (PInt 0 :: cursors))
               = PInt 0 :: cursors).
  { rewrite List.map_map. rewrite <- (List.map_id (PInt 0 :: cursors)) at 2.
    by apply List.map_ext. }
  split; [exact Hc|]. split; [|by rewrite Hc].
  rewrite length_map. destruct (pages_chain_length _ _ _ Hch) as [-> _]. done.
Qed.

Lemma fetch_games_distinct_cursors_witness :
  exists rows new,
    fst (collect_rows two_page_upstream (mkDate 2024 3 1) (mkDate 2024 3 7) 100
                      [("Authorization", "key")] 2 (PInt 0) [] world0) = Ok rows
    /\ sent (snd (fetch_games two_page_upstream sample_environ sample_local_tipoff
                              (mkDate 2024 3 1) (mkDate 2024 3 7) 100 2 world0))
       = new
    /\ List.map cursor_of new = [PInt 0; PStr "c1"]
    /\ length new = 2%nat
    /\ List.NoDup (List.map cursor_of new).
Proof.
  assert (Hnd : List.NoDup [PInt 0; PStr "c1"]).
  { constructor; [|constructor; [|constructor]]; cbn; intros H; [|done].
    by destruct H as [H|H]. }
  exact (fetch_games_distinct_cursors two_page_upstream sample_environ
           sample_local_tipoff (mkDate 2024 3 1) (mkDate 2024 3 7) 100
           [("Authorization", "key")] two_pages [[g1; g2]; [g3]] [PStr "c1"]
           2 world0 (sample_headers world0) two_pages_chain two_pages_served
           (le_n 2) Hnd).
Defined.

(** ** Pages with missing fields *)

Lemma dict_get_set_same d k v : dict_get (dict_set d k v) k = Some v.
Proof.
  induction d as [|[k' v'] d IH]; cbn.
  - by rewrite String.eqb_refl.
  - destruct (String.eqb k' k) eqn:E; cbn; by rewrite E.
Qed.

Lemma no_next_cursor_ends d : no_next_cursor d -> page_next_cursor (PDict d) = Ok PNone.
Proof.
  unfold page_next_cursor, py_get, rbind.
  intros [H|[H|(m & H & Hm)]]; rewrite H; cbn; [done|done|].
  destruct m as [|kv m]; [done|]. cbn [truthy py_get]. by rewrite Hm.
Qed.

(** C9. For a payload that is a JSON object: without a "data" field the
    page adds no row and nothing is raised; without a "meta" field, with a
    null "meta", or with a "meta" object that has no "next_cursor", the
    next cursor reads as null, exactly as for a page whose "meta" is
    [{"next_cursor": null}], and the loop returns what it has accumulated
    as after the last page. *)
Theorem missing_fields_end_collection
    (tr : Transport) (start_date end_date : date) (per_page : Z)
    (hs : list (string * string)) (fuel : nat) (cursor : pyobj)
    (rows : list pyobj) (w w1 : World) (d : dict) :
  safe_get tr games_url (page_params start_date end_date per_page cursor) hs
           default_timeout default_retries default_backoff w = (Ok (PDict d), w1) ->
  (dict_get d "data" = None -> page_rows (PDict d) = Ok [])
  /\ (no_next_cursor d ->
      page_next_cursor (PDict d) = Ok PNone
      /\ page_next_cursor (PDict d) =
         page_next_cursor (PDict (dict_set d "meta" (PDict [("next_cursor", PNone)]))))
  /\ (no_next_cursor d ->
      forall items,
        page_rows (PDict d) = Ok items ->
        collect_rows tr start_date end_date per_page hs (S fuel) cursor rows w =
          (Ok (rows ++ items)%list, w1))
  /\ (no_next_cursor d ->
      dict_get d "data" = None ->
      collect_rows tr start_date end_date per_page hs (S fuel) cursor rows w =
        (Ok rows, w1)).
Proof.
  intros Hget.
  assert (Hdata : dict_get d "data" = None -> page_rows (PDict d) = Ok []).
  { intros H. unfold page_rows, py_get, rbind. by rewrite H. }
  split; [exact Hdata|]. split; [|split].
  - intros Hn. split; [by apply no_next_cursor_ends|].
    rewrite no_next_cursor_ends by done.
    unfold page_next_cursor, py_get, rbind. by rewrite dict_get_set_same.
  - intros Hn items Hi.
    by rewrite (collect_rows_turn _ _ _ _ _ _ _ _ _ _ _ items PNone Hget Hi
                  (no_next_cursor_ends _ Hn)).
  - intros Hn Hd.
    rewrite (collect_rows_turn _ _ _ _ _ _ _ _ _ _ _ [] PNone Hget (Hdata Hd)
               (no_next_cursor_ends _ Hn)).
    by rewrite app_nil_r.
Qed.

Lemma missing_fields_end_collection_witness :
  page_rows (PDict bare_payload) = Ok []
  /\ page_next_cursor (PDict bare_payload) = Ok PNone
  /\ collect_rows bare_upstream (mkDate 2024 3 1) (mkDate 2024 3 7) 100
                  [("Authorization", "key")] 1 (PInt 0) [g1] world0 =
       (Ok [g1],
        mkWorld [mkRequest games_url
                   (page_params (mkDate 2024 3 1) (mkDate 2024 3 7) 100 (PInt 0))
                   [("Authorization", "key")] default_timeout] []).
Proof.
  assert (Hn : no_next_cursor bare_payload) by (right; left; reflexivity).
  destruct (missing_fields_end_collection bare_upstream (mkDate 2024 3 1)
              (mkDate 2024 3 7) 100 [("Authorization", "key")] 0 (PInt 0) [g1]
              world0 _ bare_payload eq_refl) as (H1 & H2 & _ & H4).
  split; [exact (H1 eq_refl)|]. split; [exact (proj1 (H2 Hn))|].
  exact (H4 Hn eq_refl).
Defined.

(** ** Cells, columns and records *)

Lemma cell_dict_set r c v c' :
  cell (dict_set r c v) c' = if String.eqb c c' then v else cell r c'.
Proof.
  unfold cell. induction r as [|[k x] r IH]; cbn.
  - by destruct (String.eqb c c').
  - destruct (String.eqb k c) eqn:Ekc; cbn.
    + apply String.eqb_eq in Ekc as ->. by destruct (String.eqb c c').
    + destruct (String.eqb k c') eqn:Ekc'; [|exact IH].
      apply String.eqb_eq in Ekc' as ->.
      rewrite String.eqb_sym in Ekc. by rewrite Ekc.
Qed.

Lemma cell_align cols r c :
  cell (align cols r) c = if existsb (String.eqb c) cols then cell r c else PNone.
Proof.
  unfold cell, align. induction cols as [|c0 cols IH]; cbn; [done|].
  rewrite (String.eqb_sym c c0).
  destruct (String.eqb c0 c) eqn:E; cbn; [|exact IH].
  by apply String.eqb_eq in E as ->.
Qed.

Lemma keys_align cols r : dict_keys (align cols r) = cols.
Proof.
  unfold dict_keys, align. rewrite List.map_map. cbn. apply List.map_id.
Qed.

Lemma assign_length rs c s : length (assign rs c s) = length rs.
Proof. revert s. induction rs as [|r rs IH]; intros s; cbn; [done|]. by rewrite IH. Qed.

Lemma assign_cell_other rs c s c' :
  c <> c' ->
  List.map (fun r => cell r c') (assign rs c s) = List.map (fun r => cell r c') rs.
Proof.
  intros Hne. revert s. induction rs as [|r rs IH]; intros s; cbn; [done|].
  rewrite IH, cell_dict_set.
  by destruct (String.eqb_spec c c').
Qed.

Lemma assign_missing rs c n :
  Forall (fun r => cell r c = PNone) (assign rs c (repeat PNone n)).
Proof.
  revert n. induction rs as [|r rs IH]; intros n; cbn; constructor.
  - rewrite cell_dict_set, String.eqb_refl. by destruct n.
  - destruct n as [|n]; [apply (IH 0%nat)|apply (IH n)].
Qed.

Lemma has_column_set_column df c s c' :
  has_column (set_column df c s) c' = has_column df c' || String.eqb c' c.
Proof.
  unfold set_column, has_column at 1. cbn [columns].
  destruct (has_column df c) eqn:E.
  - fold (has_column df c'). destruct (String.eqb_spec c' c) as [->|]; [|by rewrite orb_false_r].
    by rewrite E.
  - rewrite existsb_app. cbn. by rewrite orb_false_r.
Qed.

(** ** The order of strings *)

Lemma str_compare_refl a : String.compare a a = Eq.
Proof. by apply String_as_OT.cmp_eq. Qed.

Lemma str_lt_trans a b c :
  String.compare a b = Lt -> String.compare b c = Lt -> String.compare a c = Lt.
Proof.
  intros H1 H2. apply String_as_OT.cmp_lt.
  eapply String_as_OT.lt_trans; by apply String_as_OT.cmp_lt.
Qed.

Lemma str_leb_cases a b : String.leb a b = true <-> String.ltb a b = true \/ a = b.
Proof.
  unfold String.leb, String.ltb.
  destruct (String.compare a b) eqn:E; split; try done; intros H.
  - right. by apply String.compare_eq_iff.
  - by left.
  - destruct H as [H| ->]; [done|]. by rewrite str_compare_refl in E.
Qed.

Lemma str_ltb_trans a b c :
  String.ltb a b = true -> String.ltb b c = true -> String.ltb a c = true.
Proof.
  unfold String.ltb. intros H1 H2.
  destruct (String.compare a b) eqn:E1; try done.
  destruct (String.compare b c) eqn:E2; try done.
  by rewrite (str_lt_trans a b c).
Qed.

Lemma str_leb_trans a b c :
  String.leb a b = true -> String.leb b c = true -> String.leb a c = true.
Proof.
  rewrite !str_leb_cases. intros [H1| ->] [H2| ->]; auto.
  left. by eapply str_ltb_trans.
Qed.

(** ** Sorting *)

Lemma rbind_Ok {A B} (r : result A) (k : A -> result B) (b : B) :
  rbind r k = Ok b -> exists a, r = Ok a /\ k a = Ok b.
Proof. destruct r; cbn; try done. intros H. by eexists. Qed.

Lemma keyed_inv by_ rs : forall krs,
  keyed by_ rs = Ok krs ->
  List.map snd krs = rs
  /\ Forall (fun kr => record_keys by_ (snd kr) = Ok (fst kr)) krs.
Proof.
  induction rs as [|r rs IH]; intros krs H; cbn in H.
  - inversion H; subst. by split.
  - apply rbind_Ok in H as (k & Hk & H). apply rbind_Ok in H as (krs' & Hkrs & H).
    inversion H; subst. destruct (IH _ Hkrs) as [E F]. cbn. split; [by rewrite E|].
    by constructor.
Qed.

Lemma insert_keyed_perm x l : Permutation (x :: l) (insert_keyed x l).
Proof.
  induction l as [|y l IH]; cbn; [done|].
  destruct (keys_le (fst x) (fst y)); [done|].
  rewrite perm_swap. by constructor.
Qed.

Lemma sort_keyed_perm l : Permutation l (sort_keyed l).
Proof.
  induction l as [|x l IH]; cbn; [done|].
  rewrite <- insert_keyed_perm. by constructor.
Qed.

Lemma compare_key_antisym a b : compare_key a b = CompOpp (compare_key b a).
Proof. destruct a, b; cbn; try done. apply String.compare_antisym. Qed.

Lemma compare_keys_antisym k1 : forall k2,
  compare_keys k1 k2 = CompOpp (compare_keys k2 k1).
Proof.
  induction k1 as [|a k1 IH]; intros [|b k2]; cbn; try done.
  rewrite (compare_key_antisym a b).
  destruct (compare_key b a); cbn; [apply IH|done|done].
Qed.

Lemma keys_le_total k1 k2 : keys_le k1 k2 = false -> keys_le k2 k1 = true.
Proof.
  unfold keys_le. rewrite (compare_keys_antisym k1 k2).
  by destruct (compare_keys k2 k1).
Qed.

Lemma insert_keyed_sorted x l :
  Sorted keyed_le l -> Sorted keyed_le (insert_keyed x l).
Proof.
  induction l as [|y l IH]; intros Hs; cbn.
  - by repeat constructor.
  - destruct (keys_le (fst x) (fst y)) eqn:E.
    + constructor; [done|]. by constructor.
    + apply Sorted_inv in Hs as [Hs Hhd]. constructor; [by apply IH|].
      destruct l as [|z l]; cbn.
      * constructor. by apply keys_le_total.
      * destruct (keys_le (fst x) (fst z)).
        -- constructor. by apply keys_le_total.
        -- constructor. by inversion Hhd.
Qed.

Lemma sort_keyed_sorted l : Sorted keyed_le (sort_keyed l).
Proof.
  induction l as [|x l IH]; cbn; [constructor|]. by apply insert_keyed_sorted.
Qed.

Lemma Sorted_map_rel {A B} (R : A -> A -> Prop) (R' : B -> B -> Prop)
    (P : A -> Prop) (f : A -> B) (l : list A) :
  (forall x y, P x -> P y -> R x y -> R' (f x) (f y)) ->
  Forall P l -> Sorted R l -> Sorted R' (List.map f l).
Proof.
  intros HR. induction l as [|x l IH]; intros HP Hs; cbn; [constructor|].
  apply Forall_cons_1 in HP as [Hx HP]. apply Sorted_inv in Hs as [Hs Hhd].
  constructor; [by apply IH|].
  destruct l as [|y l]; cbn; constructor.
  apply Forall_cons_1 in HP as [Hy _]. apply HR; try done. by inversion Hhd.
Qed.

(** On the keys [date] then [tipoff_local], the order of the keys is the
    order [game_le] of the records. *)
Lemma keys_le_game_le r1 r2 k1 k2 :
  record_keys ["date"; "tipoff_local"] r1 = Ok k1 ->
  record_keys ["date"; "tipoff_local"] r2 = Ok k2 ->
  keys_le k1 k2 = true ->
  game_le r1 r2.
Proof.
  unfold record_keys, game_le, tipoff_le, sort_key, keys_le.
  destruct (cell r1 "date") as [| | | |d1| |]; cbn; try done;
    destruct (cell r1 "tipoff_local") as [| | | |t1| |]; cbn; try done;
    destruct (cell r2 "date") as [| | | |d2| |]; cbn; try done;
    destruct (cell r2 "tipoff_local") as [| | | |t2| |]; cbn; try done;
    intros [= <-] [= <-]; cbn; try done;
    unfold String.ltb, String.leb;
    try (destruct (String.compare d1 d2) eqn:Ed; try done;
         try (by left);
         apply String.compare_eq_iff in Ed; subst;
         try (by right));
    try (destruct (String.compare t1 t2) eqn:Et; try done);
    intros _; right; split; try done; by rewrite Et.
Qed.

Lemma tipoff_le_trans a b c : tipoff_le a b -> tipoff_le b c -> tipoff_le a c.
Proof.
  unfold tipoff_le. destruct a, b, c; try done. apply str_leb_trans.
Qed.

Lemma game_le_trans r1 r2 r3 : game_le r1 r2 -> game_le r2 r3 -> game_le r1 r3.
Proof.
  unfold game_le.
  destruct (cell r1 "date") as [| | | |d1| |]; try done;
    destruct (cell r2 "date") as [| | | |d2| |]; try done;
    destruct (cell r3 "date") as [| | | |d3| |]; try done.
  - apply tipoff_le_trans.
  - intros [H1|[-> H1]] [H2|[-> H2]].
    + left. by eapply str_ltb_trans.
    + by left.
    + by left.
    + right. split; [done|]. by eapply tipoff_le_trans.
Qed.

(** ** From the rows to the frame *)

Lemma existsb_filter c (f : string -> bool) l :
  existsb (String.eqb c) (List.filter f l) = existsb (String.eqb c) l && f c.
Proof.
  induction l as [|x l IH]; cbn; [done|].
  destruct (f x) eqn:Ef; cbn; rewrite IH.
  - destruct (String.eqb_spec c x) as [->|]; cbn; [by rewrite Ef|done].
  - destruct (String.eqb_spec c x) as [->|]; cbn; [|done].
    rewrite Ef. by rewrite andb_false_r.
Qed.

Lemma flatten_rows_length rows : forall rs,
  flatten_rows rows = Ok rs -> length rs = length rows.
Proof.
  induction rows as [|row rows IH]; intros rs H; cbn in H.
  - by inversion H.
  - destruct row; try done. apply rbind_Ok in H as (rs' & E & H).
    inversion H; subst. cbn. f_equal. by apply IH.
Qed.

Lemma flatten_rows_dates rows : forall rs,
  flatten_rows rows = Ok rs ->
  List.map (fun r => cell r "date") rs = List.map row_date rows.
Proof.
  induction rows as [|row rows IH]; intros rs H; cbn in H.
  - by inversion H.
  - destruct row; try done. apply rbind_Ok in H as (rs' & E & H).
    inversion H; subst. cbn. f_equal. by apply IH.
Qed.

Section FrameFacts.
Variable local_tipoff : list pyobj -> result (list (option string)).

Lemma with_tipoff_local_inv df0 df1 :
  with_tipoff_local local_tipoff df0 = Ok df1 ->
  exists s,
    df1 = set_column df0 "tipoff_local" s
    /\ (has_column df0 "datetime" = false ->
        s = repeat PNone (length (records df0))).
Proof using Type.
  unfold with_tipoff_local. destruct (has_column df0 "datetime").
  - intros H. apply rbind_Ok in H as (s & _ & H). inversion H. by eexists.
  - intros H. inversion H. by eexists.
Qed.

Lemma get_fillna_inv df c s :
  get_fillna df c = Ok s ->
  has_column df c = true /\ s = fillna_empty (column df c).
Proof using Type.
  unfold get_fillna. destruct (has_column df c); [|done]. intros H. by inversion H.
Qed.

Lemma with_matchup_inv df1 df2 :
  with_matchup df1 = Ok df2 ->
  exists a m,
    has_column df1 "visitor_team.full_name" = true
    /\ has_column df1 "home_team.full_name" = true
    /\ add_scalar (fillna_empty (column df1 "visitor_team.full_name")) " @ " = Ok a
    /\ add_series a (fillna_empty (column df1 "home_team.full_name")) = Ok m
    /\ df2 = set_column df1 "matchup" m.
Proof using Type.
  unfold with_matchup. intros H.
  apply rbind_Ok in H as (v & Hv & H). apply rbind_Ok in H as (a & Ha & H).
  apply rbind_Ok in H as (h & Hh & H). apply rbind_Ok in H as (m & Hm & H).
  apply get_fillna_inv in Hv as [Hv ->]. apply get_fillna_inv in Hh as [Hh ->].
  inversion H. by exists a, m.
Qed.

Lemma prepare_frame_inv rows df :
  prepare_frame local_tipoff rows = Ok df ->
  exists df0 df1 df2,
    json_normalize rows = Ok df0
    /\ with_tipoff_local local_tipoff df0 = Ok df1
    /\ with_matchup df1 = Ok df2
    /\ df = select df2 (List.filter (has_column df2) keep).
Proof using Type.
  unfold prepare_frame. intros H.
  apply rbind_Ok in H as (df0 & H0 & H). apply rbind_Ok in H as (df1 & H1 & H).
  apply rbind_Ok in H as (df2 & H2 & H). inversion H. by exists df0, df1, df2.
Qed.

(** The columns of the frame before the sort. *)
Lemma prepare_frame_columns rows df :
  prepare_frame local_tipoff rows = Ok df ->
  exists df0,
    json_normalize rows = Ok df0
    /\ columns df =
       List.filter
         (fun c => has_column df0 c || String.eqb c "tipoff_local"
                   || String.eqb c "matchup")
         keep.
Proof using Type.
  intros H. apply prepare_frame_inv in H as (df0 & df1 & df2 & H0 & H1 & H2 & ->).
  apply with_tipoff_local_inv in H1 as (s & -> & _).
  apply with_matchup_inv in H2 as (a & m & _ & _ & _ & _ & ->).
  exists df0. split; [done|]. cbn [select columns].
  apply List.filter_ext. intros c. by rewrite !has_column_set_column.
Qed.

Lemma has_column_prepared rows df c :
  prepare_frame local_tipoff rows = Ok df ->
  has_column df c =
  existsb (String.eqb c) keep
  && match json_normalize rows with
     | Ok df0 => has_column df0 c || String.eqb c "tipoff_local" || String.eqb c "matchup"
     | _ => false
     end.
Proof using Type.
  intros H. destruct (prepare_frame_columns _ _ H) as (df0 & -> & E).
  unfold has_column at 1. rewrite E. apply existsb_filter.
Qed.

(** [normalize] sorts the prepared frame on [date] then [tipoff_local]. *)
Lemma normalize_inv rows df :
  normalize local_tipoff rows = Ok df ->
  exists pre krs,
    prepare_frame local_tipoff rows = Ok pre
    /\ has_column pre "date" = true
    /\ keyed ["date"; "tipoff_local"] (records pre) = Ok krs
    /\ df = mkFrame (columns pre) (List.map snd (sort_keyed krs)).
Proof using Type.
  unfold normalize. intros H. apply rbind_Ok in H as (pre & Hp & H).
  assert (Ht : has_column pre "tipoff_local" = true).
  { rewrite (has_column_prepared _ _ _ Hp).
    destruct (prepare_frame_columns _ _ Hp) as (df0 & -> & _).
    cbn. by rewrite orb_true_r. }
  rewrite Ht in H. unfold sort_values in H. cbn [missing_label] in H.
  destruct (has_column pre "date") eqn:Hd; [|done]. rewrite Ht in H.
  apply rbind_Ok in H as (krs & Hk & H). inversion H. by exists pre, krs.
Qed.
End FrameFacts.

Lemma fetch_games_inv tr environ local_tipoff start_date end_date per_page fuel w hs df w' :
  bdl_headers environ w = (Ok hs, w) ->
  fetch_games tr environ local_tipoff start_date end_date per_page fuel w = (Ok df, w') ->
  exists rows,
    collect_rows tr start_date end_date per_page hs fuel (PInt 0) [] w = (Ok rows, w')
    /\ ((rows = [] /\ df = empty_frame)
        \/ (rows <> [] /\ normalize local_tipoff rows = Ok df)).
Proof.
  unfold fetch_games, bind. intros Hh H. rewrite Hh in H.
  destruct (collect_rows _ _ _ _ _ _ _ _ _) as [[rows| | |] w1]; try done.
  exists rows. destruct rows as [|row rows].
  - inversion H. by split; [|left].
  - unfold lift in H. inversion H as [[E Ew]]. split; [done|]. right. by split.
Qed.

Lemma column_set_column_other df c s c' :
  c <> c' -> column (set_column df c s) c' = column df c'.
Proof. intros H. unfold column, set_column. cbn [records]. by apply assign_cell_other. Qed.

Lemma column_select df cols c :
  existsb (String.eqb c) cols = true -> column (select df cols) c = column df c.
Proof.
  intros H. unfold column, select. cbn [records]. rewrite List.map_map.
  apply List.map_ext. intros r. by rewrite cell_align, H.
Qed.

Lemma json_normalize_dates rows df0 :
  json_normalize rows = Ok df0 ->
  has_column df0 "date" = true ->
  column df0 "date" = List.map row_date rows.
Proof.
  unfold json_normalize. intros H Hd. apply rbind_Ok in H as (rs & Hrs & H).
  inversion H; subst. unfold column, has_column in *. cbn [records columns] in *.
  rewrite List.map_map, <- (flatten_rows_dates _ _ Hrs).
  apply List.map_ext. intros r. by rewrite cell_align, Hd.
Qed.

Lemma json_normalize_length rows df0 :
  json_normalize rows = Ok df0 -> length (records df0) = length rows.
Proof.
  unfold json_normalize. intros H. apply rbind_Ok in H as (rs & Hrs & H).
  inversion H; subst. cbn. rewrite length_map. by apply flatten_rows_length.
Qed.

Section ResultFacts.
Variable local_tipoff : list pyobj -> result (list (option string)).

Lemma prepare_frame_length rows pre :
  prepare_frame local_tipoff rows = Ok pre -> length (records pre) = length rows.
Proof using Type.
  intros H. apply prepare_frame_inv in H as (df0 & df1 & df2 & H0 & H1 & H2 & ->).
  apply with_tipoff_local_inv in H1 as (s & -> & _).
  apply with_matchup_inv in H2 as (a & m & _ & _ & _ & _ & ->).
  cbn. rewrite length_map, !assign_length. by apply json_normalize_length.
Qed.

(** A column other than the two derived ones holds what upstream sent. *)
Lemma prepare_frame_column rows pre df0 c :
  prepare_frame local_tipoff rows = Ok pre ->
  json_normalize rows = Ok df0 ->
  has_column pre c = true ->
  c <> "tipoff_local" -> c <> "matchup" ->
  has_column df0 c = true /\ column pre c = column df0 c.
Proof using Type.
  intros H H0 Hc Ht Hm.
  assert (Hc0 : has_column df0 c = true).
  { rewrite (has_column_prepared _ _ _ _ H), H0 in Hc.
    apply andb_prop in Hc as [_ Hc].
    destruct (String.eqb_spec c "tipoff_local"); [done|].
    destruct (String.eqb_spec c "matchup"); [done|].
    by rewrite !orb_false_r in Hc. }
  split; [done|].
  apply prepare_frame_inv in H as (df0' & df1 & df2 & H0' & H1 & H2 & ->).
  rewrite H0 in H0'. inversion H0'; subst df0'.
  apply with_tipoff_local_inv in H1 as (s & -> & _).
  apply with_matchup_inv in H2 as (a & m & _ & _ & _ & _ & ->).
  rewrite column_select by exact Hc.
  rewrite !column_set_column_other; [done|congruence|congruence].
Qed.

(** Without a [datetime] column upstream every tipoff is missing. *)
Lemma prepare_frame_no_datetime rows pre df0 :
  prepare_frame local_tipoff rows = Ok pre ->
  json_normalize rows = Ok df0 ->
  has_column df0 "datetime" = false ->
  Forall (fun r => cell r "tipoff_local" = PNone) (records pre).
Proof using Type.
  intros H H0 Hd.
  apply prepare_frame_inv in H as (df0' & df1 & df2 & H0' & H1 & H2 & ->).
  rewrite H0 in H0'. inversion H0'; subst df0'.
  apply with_tipoff_local_inv in H1 as (s & -> & Hs). specialize (Hs Hd). subst s.
  apply with_matchup_inv in H2 as (a & m & _ & _ & _ & _ & ->).
  cbn [select records set_column].
  apply List.Forall_map.
  assert (E : Forall (fun r => cell r "tipoff_local" = PNone)
                (assign (assign (records df0) "tipoff_local"
                           (repeat PNone (length (records df0)))) "matchup" m)).
  { apply (proj1 (List.Forall_map (fun r => cell r "tipoff_local")
                    (fun v => v = PNone) _)).
    rewrite assign_cell_other by done.
    apply List.Forall_map. apply assign_missing. }
  eapply List.Forall_impl; [|exact E]. intros r Hr. cbn beta.
  rewrite cell_align. by destruct (existsb _ _).
Qed.

Lemma prepare_frame_keys rows pre :
  prepare_frame local_tipoff rows = Ok pre ->
  Forall (fun r => dict_keys r = columns pre) (records pre).
Proof using Type.
  intros H. apply prepare_frame_inv in H as (df0 & df1 & df2 & _ & _ & _ & ->).
  cbn [select records columns]. apply List.Forall_map, List.Forall_forall.
  intros r _. apply keys_align.
Qed.

(** The sort permutes the records and leaves them in the order [game_le]. *)
Lemma normalize_sorted rows df :
  normalize local_tipoff rows = Ok df ->
  exists pre,
    prepare_frame local_tipoff rows = Ok pre
    /\ has_column pre "date" = true
    /\ columns df = columns pre
    /\ Permutation (records pre) (records df)
    /\ StronglySorted game_le (records df).
Proof using Type.
  intros H. apply normalize_inv in H as (pre & krs & Hp & Hd & Hk & ->).
  exists pre. destruct (keyed_inv _ _ _ Hk) as [Hsnd Hkeys].
  split; [done|]. split; [done|]. split; [done|]. cbn [records]. split.
  - rewrite <- Hsnd. apply Permutation_map, sort_keyed_perm.
  - apply Sorted_StronglySorted; [exact game_le_trans|].
    eapply (Sorted_map_rel keyed_le game_le
              (fun kr => record_keys ["date"; "tipoff_local"] (snd kr) = Ok (fst kr))).
    + intros x y Hx Hy Hxy. by eapply keys_le_game_le.
    + eapply Permutation_Forall; [apply sort_keyed_perm|done].
    + apply sort_keyed_sorted.
Qed.
End ResultFacts.

(** ** The result of [fetch_games] *)

Lemma two_page_fetch :
  fetch_games two_page_upstream sample_environ sample_local_tipoff
              march_1 march_7 100 2 world0 =
  (Ok two_page_frame, snd two_page_run).
Proof. vm_compute. reflexivity. Qed.

Lemma plain_fetch :
  fetch_games plain_upstream sample_environ sample_local_tipoff
              march_1 march_7 100 1 world0 = (Ok plain_frame, snd plain_run).
Proof. vm_compute. reflexivity. Qed.

(** C8. The records [fetch_games] returns are in ascending order of their
    date and, within a date, of their local tipoff string; a record without
    a tipoff comes after those of its date that have one, and records
    without one are ordered among themselves by the date alone.  The sort
    only permutes the records: there is one per collected row. *)
Theorem fetch_games_sorted
    (tr : Transport) (environ : Environ)
    (local_tipoff : list pyobj -> result (list (option string)))
    (start_date end_date : date) (per_page : Z) (fuel : nat)
    (hs : list (string * string)) (w w' : World) (df : DataFrame) :
  bdl_headers environ w = (Ok hs, w) ->
  fetch_games tr environ local_tipoff start_date end_date per_page fuel w = (Ok df, w') ->
  StronglySorted game_le (records df)
  /\ exists rows,
       collect_rows tr start_date end_date per_page hs fuel (PInt 0) [] w = (Ok rows, w')
       /\ length (records df) = length rows
       /\ (rows <> [] ->
           exists pre,
             prepare_frame local_tipoff rows = Ok pre
             /\ Permutation (records pre) (records df)).
Proof.
  intros Hh H.
  apply (fetch_games_inv _ _ _ _ _ _ _ _ hs) in H as (rows & Hc & [[-> ->]|[Hne Hn]]);
    [| |done].
  - split; [constructor|]. exists []. split; [done|]. split; [done|]. by intros.
  - apply normalize_sorted in Hn as (pre & Hp & _ & _ & Hperm & Hs).
    split; [done|]. exists rows. split; [done|]. split.
    + rewrite <- (Permutation_length Hperm). by eapply prepare_frame_length.
    + intros _. by exists pre.
Qed.

Lemma fetch_games_sorted_witness :
  List.map (fun r => (cell r "date", cell r "tipoff_local")) (records two_page_frame)
  = [ (PStr "2024-03-01", PStr "2024-03-01T19:00");
      (PStr "2024-03-01", PStr "2024-03-01T21:30");
      (PStr "2024-03-02", PStr "2024-03-02T20:00") ]
  /\ StronglySorted game_le (records two_page_frame).
Proof.
  split; [reflexivity|].
  exact (proj1 (fetch_games_sorted _ _ _ _ _ _ _ _ _ _ _
                  (sample_headers world0) two_page_fetch)).
Defined.

(** C10. A non-empty result has exactly the columns of the keep list that
    are columns of the normalized upstream rows or one of the two derived
    columns, in the order of the keep list.  [tipoff_local] and [matchup]
    are always among them, and [tipoff_local] is missing in every record
    when upstream has no [datetime] column.  Any other column of the keep
    list that upstream does not have is left out, and every record has
    exactly the columns of the result. *)
Theorem fetch_games_columns
    (tr : Transport) (environ : Environ)
    (local_tipoff : list pyobj -> result (list (option string)))
    (start_date end_date : date) (per_page : Z) (fuel : nat)
    (hs : list (string * string)) (w w' : World) (df : DataFrame) :
  bdl_headers environ w = (Ok hs, w) ->
  fetch_games tr environ local_tipoff start_date end_date per_page fuel w = (Ok df, w') ->
  records df <> [] ->
  exists rows df0,
    collect_rows tr start_date end_date per_page hs fuel (PInt 0) [] w = (Ok rows, w')
    /\ json_normalize rows = Ok df0
    /\ columns df =
       List.filter
         (fun c => has_column df0 c || String.eqb c "tipoff_local"
                   || String.eqb c "matchup")
         keep
    /\ In "tipoff_local" (columns df)
    /\ In "matchup" (columns df)
    /\ (has_column df0 "datetime" = false ->
        Forall (fun r => cell r "tipoff_local" = PNone) (records df))
    /\ (forall c, In c keep -> c <> "tipoff_local" -> c <> "matchup" ->
                  has_column df0 c = false -> ~ In c (columns df))
    /\ Forall (fun r => dict_keys r = columns df) (records df).
Proof.
  intros Hh H Hne.
  apply (fetch_games_inv _ _ _ _ _ _ _ _ hs) in H as (rows & Hc & [[-> ->]|[_ Hn]]);
    [done| |done].
  apply normalize_sorted in Hn as (pre & Hp & _ & Hcols & Hperm & _).
  destruct (prepare_frame_columns _ _ _ Hp) as (df0 & H0 & E).
  exists rows, df0. rewrite Hcols, E.
  split; [done|]. split; [done|]. split; [done|].
  split; [|split; [|split; [|split]]].
  - apply List.filter_In. split; [cbn; tauto|]. by rewrite orb_true_r.
  - apply List.filter_In. split; [cbn; tauto|]. by rewrite orb_true_r.
  - intros Hd. eapply Permutation_Forall; [exact Hperm|].
    by eapply prepare_frame_no_datetime.
  - intros c Hk Ht Hm Hc0 Hin. apply List.filter_In in Hin as [_ Hin].
    rewrite Hc0 in Hin.
    destruct (String.eqb_spec c "tipoff_local"); [done|].
    by destruct (String.eqb_spec c "matchup").
  - eapply Permutation_Forall; [exact Hperm|]. rewrite <- E.
    by eapply prepare_frame_keys.
Qed.

Lemma fetch_games_columns_witness :
  columns plain_frame =
    [ "id"; "date"; "tipoff_local"; "status"; "visitor_team.abbreviation";
      "visitor_team_score"; "home_team.abbreviation"; "home_team_score"; "matchup" ]
  /\ List.map (fun r => cell r "tipoff_local") (records plain_frame) = [PNone; PNone]
  /\ exists df0,
       json_normalize [plain_game 5 "2024-03-03"; plain_game 4 "2024-03-02"] = Ok df0
       /\ has_column df0 "postseason" = false
       /\ has_column df0 "season" = true
       /\ columns plain_frame =
          List.filter
            (fun c => has_column df0 c || String.eqb c "tipoff_local"
                      || String.eqb c "matchup")
            keep.
Proof.
  split; [reflexivity|]. split; [reflexivity|].
  assert (Hne : records plain_frame <> []) by discriminate.
  destruct (fetch_games_columns _ _ _ _ _ _ _ _ _ _ _
              (sample_headers world0) plain_fetch Hne)
    as (rows & df0 & Hc & H0 & Hcols & _).
  vm_compute in Hc. injection Hc as <-.
  exists df0. split; [exact H0|]. vm_compute in H0. injection H0 as <-.
  split; [reflexivity|]. split; [reflexivity|exact Hcols].
Defined.

(** ** Dates *)

Lemma normalize_dates local_tipoff rows df :
  normalize local_tipoff rows = Ok df ->
  Permutation (List.map row_date rows) (column df "date")
  /\ length (records df) = length rows.
Proof.
  intros Hn. apply normalize_sorted in Hn as (pre & Hp & Hd & _ & Hperm & _).
  destruct (prepare_frame_columns _ _ _ Hp) as (df0 & H0 & _).
  destruct (prepare_frame_column _ _ _ _ "date" Hp H0 Hd) as [Hd0 E]; [done|done|].
  split.
  - rewrite <- (json_normalize_dates _ _ H0 Hd0), <- E.
    unfold column. by apply Permutation_map.
  - rewrite <- (Permutation_length Hperm). by eapply prepare_frame_length.
Qed.

(** Counterexample to the containment of dates as stated: asked for the
    week of 1 to 7 March 2024, an upstream that answers with a game of
    25 December 2023 gets that game into the result. *)
Lemma fetch_games_returns_date_outside_range :
  date_le march_1 march_7
  /\ exists df w',
       fetch_games stray_upstream sample_environ sample_local_tipoff
                   march_1 march_7 100 1 world0 = (Ok df, w')
       /\ List.map (fun r => cell r "date") (records df) = [PStr "2023-12-25"]
       /\ ~ Forall (fun r => date_in_range march_1 march_7 (cell r "date") = true)
            (records df).
Proof.
  split; [right; split; [done|]; right; split; [done|]; cbn; lia|].
  eexists. eexists. split; [vm_compute; reflexivity|]. split; [reflexivity|].
  intros H. apply Forall_cons_1 in H as [H _]. vm_compute in H. discriminate H.
Qed.

(** C6, amended. [fetch_games] sends [start_date] and [end_date] to the
    upstream as query parameters and does not itself compare any date with
    them: the dates of the records it returns are the dates of the rows the
    upstream served, each once.  So the result is empty, or it is a
    non-empty sequence in which every record's date lies within
    [start_date, end_date] provided the date of every row the upstream
    served does. *)
Theorem fetch_games_dates_from_upstream
    (tr : Transport) (environ : Environ)
    (local_tipoff : list pyobj -> result (list (option string)))
    (start_date end_date : date) (per_page : Z) (fuel : nat)
    (hs : list (string * string)) (w w' : World) (df : DataFrame) :
  bdl_headers environ w = (Ok hs, w) ->
  fetch_games tr environ local_tipoff start_date end_date per_page fuel w = (Ok df, w') ->
  exists rows,
    collect_rows tr start_date end_date per_page hs fuel (PInt 0) [] w = (Ok rows, w')
    /\ (df = empty_frame \/ records df <> [])
    /\ Permutation (List.map row_date rows)
                   (List.map (fun r => cell r "date") (records df))
    /\ (Forall (fun row => date_in_range start_date end_date (row_date row) = true) rows ->
        Forall (fun r => date_in_range start_date end_date (cell r "date") = true)
               (records df)).
Proof.
  intros Hh H. apply (fetch_games_inv _ _ _ _ _ _ _ _ hs) in H as (rows & Hc & Hcase);
    [|done].
  exists rows. split; [done|].
  assert (Hp : Permutation (List.map row_date rows)
                 (List.map (fun r => cell r "date") (records df))
               /\ (df = empty_frame \/ records df <> [])).
  { destruct Hcase as [[-> ->]|[Hne Hn]]; [by split; [|left]|].
    destruct (normalize_dates _ _ _ Hn) as [Hperm Hlen]. split; [done|].
    right. intros E. rewrite E in Hlen. by destruct rows. }
  destruct Hp as [Hperm Hempty]. split; [done|]. split; [done|].
  intros Hall.
  apply (proj1 (List.Forall_map (fun r => cell r "date")
                  (fun v => date_in_range start_date end_date v = true) _)).
  eapply Permutation_Forall; [exact Hperm|]. by apply List.Forall_map.
Qed.

Lemma fetch_games_dates_from_upstream_witness :
  List.map (fun r => cell r "date") (records two_page_frame)
  = [PStr "2024-03-01"; PStr "2024-03-01"; PStr "2024-03-02"]
  /\ Forall (fun r => date_in_range march_1 march_7 (cell r "date") = true)
            (records two_page_frame).
Proof.
  split; [reflexivity|].
  destruct (fetch_games_dates_from_upstream _ _ _ _ _ _ _ _ _ _ _
              (sample_headers world0) two_page_fetch)
    as (rows & Hc & _ & _ & Hin).
  apply Hin. vm_compute in Hc. injection Hc as <-.
  repeat constructor.
Defined.

(** ** Team names *)

(** When no collected row has the visitor's [full_name], [df.get] returns
    its default [""], and [fillna] on it raises. *)
Lemma normalize_without_full_name local_tipoff rows df0 df1 :
  json_normalize rows = Ok df0 ->
  with_tipoff_local local_tipoff df0 = Ok df1 ->
  has_column df0 "visitor_team.full_name" = false ->
  normalize local_tipoff rows =
  Raise (AttributeError "'str' object has no attribute 'fillna'").
Proof.
  intros H0 H1 Hv. unfold normalize, prepare_frame. rewrite H0. cbn [rbind].
  rewrite H1. cbn [rbind].
  apply with_tipoff_local_inv in H1 as (s & -> & _).
  unfold with_matchup, get_fillna. rewrite has_column_set_column, Hv. done.
Qed.

(** A row without names, or with null names, next to a row that has them:
    its matchup is [" @ "]. *)
Lemma fetch_games_missing_names_among_named :
  exists df w',
    fetch_games mixed_upstream sample_environ sample_local_tipoff
                march_1 march_7 100 1 world0 = (Ok df, w')
    /\ List.map (fun r => (cell r "id", cell r "matchup")) (records df)
       = [ (PInt 7, PStr " @ ");
           (PInt 1, PStr "Boston Celtics @ Miami Heat");
           (PInt 8, PStr " @ ") ].
Proof. eexists. eexists. split; [vm_compute; reflexivity|reflexivity]. Qed.

(** C7. On a response in which no row has the team [full_name] fields,
    [fetch_games] does not produce the matchup [" @ "]: it raises
    AttributeError, the [str] default of [df.get] having no [fillna]. *)
Theorem fetch_games_absent_full_name_raises :
  fst (fetch_games nameless_upstream sample_environ sample_local_tipoff
                   march_1 march_7 100 1 world0)
  = Raise (AttributeError "'str' object has no attribute 'fillna'").
Proof. vm_compute. reflexivity. Qed.

(** ** The cache *)



(** * Further properties *)

(** ** More on [safe_get] *)

Lemma fails_or_returns u a : fails u a \/ exists v, returns_body u a v.
Proof.
  destruct a as [e|r]; [by left|]. cbn.
  destruct (Z.eq_dec (status_code r) 429) as [E|E]; [by left; left|].
  destruct (http_error u r) as [e|] eqn:Eh; [by left; right; left|].
  destruct (json r) as [e|v] eqn:Ej.
  - left. right. right. by exists e.
  - right. exists v, r. by rewrite Eh.
Qed.

Lemma fails_not_returns u a v : fails u a -> returns_body u a v -> False.
Proof.
  intros Hf (r & -> & H1 & H2 & H3). cbn in Hf.
  destruct Hf as [H|[H|[e H]]]; [done|done|]. by rewrite H3 in H.
Qed.

Section SafeGetMore.
Variable tr : Transport.
Variables (u : string) (ps : dict) (hs : list (string * string)).
Variables (tmo retries : Z) (backoff : Q).

Let req := mkRequest u ps hs tmo.

Lemma safe_get_for_return_step i range e w v :
  returns_body u (tr (length (sent w)) req) v ->
  safe_get_for tr u ps hs tmo retries backoff (i :: range) e w =
  (Ok v, mkWorld (sent w ++ [req]) (slept w)).
Proof using Type.
  intros (r & Hr & Hs & Hh & Hj). cbn [safe_get_for].
  unfold safe_get_try, bind, requests_get. fold req. rewrite Hr.
  replace (status_code r =? 429) with false by (symmetry; by apply Z.eqb_neq).
  unfold raise_for_status. rewrite Hh. cbn. unfold response_json. by rewrite Hj.
Qed.

(** A failing attempt when [backoff ** i] is a valid sleep length. *)
Lemma safe_get_for_fail_sleep i range e w :
  Qle_bool 0 (pow backoff i) = true ->
  fails u (tr (length (sent w)) req) ->
  safe_get_for tr u ps hs tmo retries backoff (i :: range) e w =
  safe_get_for tr u ps hs tmo retries backoff range
    (match recorded_error u (tr (length (sent w)) req) with
     | Some e' => Some e'
     | None => e
     end)
    (mkWorld (sent w ++ [req]) (slept w ++ [pow backoff i])).
Proof using Type.
  intros Hb Hf. cbn [safe_get_for]. unfold safe_get_try, bind, requests_get.
  fold req. unfold recorded_error, fails in *.
  destruct (tr (length (sent w)) req) as [e'|r].
  - unfold time_sleep. cbn. by rewrite Hb.
  - destruct (status_code r =? 429) eqn:E429.
    + unfold time_sleep, ret. cbn. by rewrite Hb.
    + unfold raise_for_status.
      destruct (http_error u r) as [e'|] eqn:Eh.
      * unfold raise, time_sleep. cbn. by rewrite Hb.
      * unfold ret, response_json.
        destruct Hf as [H|[H|[e' H]]]; [lia|done|].
        rewrite H. unfold raise, time_sleep. cbn. by rewrite Hb.
Qed.

(** A failing attempt when [backoff ** i] is negative: [time.sleep] raises,
    in the handler at the latest, and the exception leaves [safe_get]. *)
Lemma safe_get_for_fail_negative i range e w :
  Qle_bool 0 (pow backoff i) = false ->
  fails u (tr (length (sent w)) req) ->
  safe_get_for tr u ps hs tmo retries backoff (i :: range) e w =
  (Raise (ValueError "sleep length must be non-negative"),
   mkWorld (sent w ++ [req]) (slept w)).
Proof using Type.
  intros Hb Hf. cbn [safe_get_for]. unfold safe_get_try, bind, requests_get.
  fold req. unfold fails in *.
  destruct (tr (length (sent w)) req) as [e'|r].
  - unfold time_sleep. cbn. by rewrite Hb.
  - destruct (status_code r =? 429) eqn:E429.
    + unfold time_sleep, ret. cbn. by rewrite Hb.
    + unfold raise_for_status.
      destruct (http_error u r) as [e'|] eqn:Eh.
      * unfold raise, time_sleep. cbn. by rewrite Hb.
      * unfold ret, response_json.
        destruct Hf as [H|[H|[e' H]]]; [lia|done|].
        rewrite H. unfold raise, time_sleep. cbn. by rewrite Hb.
Qed.

(** Whatever the transport and the backoff, the loop over a range sends the
    same request at most once per index and sleeps at most once per
    request. *)
Lemma safe_get_for_bounded range : forall e w,
  exists k sl,
    (k <= length range)%nat
    /\ (length sl <= k)%nat
    /\ snd (safe_get_for tr u ps hs tmo retries backoff range e w) =
       mkWorld (sent w ++ repeat req k) (slept w ++ sl).
Proof using Type.
  induction range as [|i range IH]; intros e w.
  - exists 0%nat, []. cbn. split; [done|]. split; [done|].
    destruct w. cbn. by rewrite !app_nil_r.
  - destruct (fails_or_returns u (tr (length (sent w)) req)) as [Hf|[v Hv]].
    + destruct (Qle_bool 0 (pow backoff i)) eqn:Hb.
      * rewrite safe_get_for_fail_sleep by done.
        destruct (IH (match recorded_error u (tr (length (sent w)) req) with
                      | Some e' => Some e'
                      | None => e
                      end)
                     (mkWorld (sent w ++ [req]) (slept w ++ [pow backoff i])))
          as (k & sl & Hk & Hsl & E).
        exists (S k), (pow backoff i :: sl). cbn [length]. split; [lia|]. split; [lia|].
        rewrite E. cbn [sent slept repeat]. by rewrite <- !app_assoc.
      * rewrite safe_get_for_fail_negative by done.
        exists 1%nat, []. cbn [length snd repeat]. split; [lia|]. split; [lia|].
        by rewrite app_nil_r.
    + rewrite (safe_get_for_return_step _ _ _ _ v) by done.
      exists 1%nat, []. cbn [length snd repeat]. split; [lia|]. split; [lia|].
      by rewrite app_nil_r.
Qed.
End SafeGetMore.

(** X1. Whatever the transport does and whatever the arguments are, one
    call of [safe_get] sends the same request at most [retries] times (not
    at all when [retries <= 0]) and sleeps at most once per request sent. *)
Theorem safe_get_attempts_bounded
    (tr : Transport) (u : string) (ps : dict) (hs : list (string * string))
    (tmo retries : Z) (backoff : Q) (w : World) :
  exists (k : nat) (sl : list Q),
    Z.of_nat k <= Z.max 0 retries
    /\ (length sl <= k)%nat
    /\ sent (snd (safe_get tr u ps hs tmo retries backoff w)) =
       (sent w ++ repeat (mkRequest u ps hs tmo) k)%list
    /\ slept (snd (safe_get tr u ps hs tmo retries backoff w)) = (slept w ++ sl)%list.
Proof.
  unfold safe_get.
  destruct (safe_get_for_bounded tr u ps hs tmo retries backoff
              (seq 0 (Z.to_nat retries)) None w) as (k & sl & Hk & Hsl & E).
  exists k, sl. rewrite E. rewrite length_seq in Hk. cbn. repeat split; try done. lia.
Qed.

Lemma attempts_from_snoc tr w req n :
  attempts_from tr w req (S n) =
  (attempts_from tr w req n ++ [tr (length (sent w) + n)%nat req])%list.
Proof. unfold attempts_from. by rewrite seq_S, List.map_app. Qed.

(** Either every one of the first [n] attempts fails, or there is a first
    one that makes [safe_get] return. *)
Lemma first_return tr u w req n :
  Forall (fails u) (attempts_from tr w req n)
  \/ exists k v,
       (k < n)%nat
       /\ Forall (fails u) (attempts_from tr w req k)
       /\ returns_body u (tr (length (sent w) + k)%nat req) v.
Proof.
  induction n as [|n [IH|(k & v & Hk & Hf & Hv)]].
  - left. constructor.
  - destruct (fails_or_returns u (tr (length (sent w) + n)%nat req)) as [Hf|[v Hv]].
    + left. rewrite attempts_from_snoc. apply Forall_app. split; [done|]. by constructor.
    + right. exists n, v. split; [lia|]. by split.
  - right. exists k, v. split; [lia|]. by split.
Qed.

Lemma safe_get_for_fail_then_return tr u ps hs tmo retries backoff k :
  forall a range e w v,
    (0 <= backoff)%Q ->
    Forall (fails u) (attempts_from tr w (mkRequest u ps hs tmo) k) ->
    returns_body u (tr (length (sent w) + k)%nat (mkRequest u ps hs tmo)) v ->
    safe_get_for tr u ps hs tmo retries backoff (seq a k ++ (a + k)%nat :: range) e w =
    (Ok v,
     mkWorld (sent w ++ repeat (mkRequest u ps hs tmo) (S k))
             (slept w ++ List.map (pow backoff) (seq a k))).
Proof.
  induction k as [|k IH]; intros a range e w v Hb Hall Hok.
  - rewrite Nat.add_0_r in Hok. cbn [seq app].
    rewrite (safe_get_for_return_step _ _ _ _ _ _ _ _ _ _ _ v) by done.
    cbn. by rewrite app_nil_r.
  - rewrite attempts_from_S in Hall. inversion Hall as [|? ? Hf Hrest]; subst.
    cbn [seq app]. rewrite safe_get_for_fail_step by done.
    replace (a + S k)%nat with (S a + k)%nat by lia.
    rewrite (IH (S a) range _ _ v); try done.
    + cbn [sent slept List.map repeat]. by rewrite <- !app_assoc.
    + cbn [sent]. rewrite length_app. cbn.
      by replace (length (sent w) + 1 + k)%nat with (length (sent w) + S k)%nat by lia.
Qed.

(** The two ways a call of [safe_get] ends when the backoff is not
    negative. *)
Lemma safe_get_cases tr u ps hs tmo retries backoff w :
  (0 <= backoff)%Q ->
  (exists (k : nat) (v : pyobj),
     (k < Z.to_nat retries)%nat
     /\ safe_get tr u ps hs tmo retries backoff w =
        (Ok v,
         mkWorld (sent w ++ repeat (mkRequest u ps hs tmo) (S k))
                 (slept w ++ List.map (pow backoff) (seq 0 k))))
  \/ (exists e,
        safe_get tr u ps hs tmo retries backoff w =
        (Raise (RuntimeError
                  ("Request failed after " +:+ str_int retries +:+ " tries: "
                   +:+ str_opt_exn e)),
         mkWorld (sent w ++ repeat (mkRequest u ps hs tmo) (Z.to_nat retries))
                 (slept w ++ List.map (pow backoff) (seq 0 (Z.to_nat retries))))).
Proof.
  intros Hb.
  destruct (first_return tr u w (mkRequest u ps hs tmo) (Z.to_nat retries))
    as [Hall|(k & v & Hk & Hf & Hv)].
  - right. eexists. unfold safe_get. by rewrite safe_get_for_all_fail.
  - left. exists k, v. split; [done|]. unfold safe_get.
    replace (Z.to_nat retries) with (k + S (Z.to_nat retries - S k))%nat by lia.
    rewrite seq_app. cbn [seq]. by apply safe_get_for_fail_then_return.
Qed.






(** ** More on the collection loop *)

Lemma bdl_headers_cases environ w :
  (exists k, k <> "" /\ bdl_headers environ w = (Ok [("Authorization", k)], w))
  \/ bdl_headers environ w = (Raise StopException, w).
Proof.
  unfold bdl_headers. destruct (or_else _ _) as [k|]; [|by right].
  destruct (String.eqb_spec k ""); [by right|]. left. by exists k.
Qed.

Section CollectMore.
Variable tr : Transport.
Variables (start_date end_date : date) (per_page : Z).
Variable hs : list (string * string).

Let request_for (c : pyobj) : Request :=
  mkRequest games_url (page_params start_date end_date per_page c) hs default_timeout.

(** One call of [safe_get] by the loop: a payload after at least one
    request, or its RuntimeError after four. *)
Lemma safe_get_in_loop cursor w :
  (exists k v sl,
     safe_get tr games_url (page_params start_date end_date per_page cursor) hs
              default_timeout default_retries default_backoff w =
     (Ok v, mkWorld (sent w ++ repeat (request_for cursor) (S k)) (slept w ++ sl)))
  \/ (exists msg sl,
        safe_get tr games_url (page_params start_date end_date per_page cursor) hs
                 default_timeout default_retries default_backoff w =
        (Raise (RuntimeError msg),
         mkWorld (sent w ++ repeat (request_for cursor) 4) (slept w ++ sl))).
Proof using Type.
  assert (Hb : (0 <= default_backoff)%Q) by (apply Qle_bool_iff; reflexivity).
  destruct (safe_get_cases tr games_url
              (page_params start_date end_date per_page cursor) hs default_timeout
              default_retries default_backoff w Hb)
    as [(k & v & _ & E)|[e E]].
  - left. by eexists k, v, _.
  - right. by eexists _, _.
Qed.

(** Every request of the loop is the request of some cursor, and the first
    one is that of the cursor the loop starts with. *)
Lemma collect_rows_requests fuel : forall cursor rows w,
  exists cs,
    sent (snd (collect_rows tr start_date end_date per_page hs fuel cursor rows w)) =
      (sent w ++ List.map request_for cs)%list
    /\ (forall c rest, cs = c :: rest -> c = cursor).
Proof using Type.
  induction fuel as [|fuel IH]; intros cursor rows w.
  - exists []. cbn. rewrite app_nil_r. by split.
  - cbn [collect_rows]. unfold bind at 1.
    destruct (safe_get_in_loop cursor w) as [(k & payload & sl & E)|(msg & sl & E)];
      rewrite E.
    2: { exists (repeat cursor 4). cbn [snd sent]. rewrite List.map_repeat.
         split; [done|]. intros c rest Hc. cbn in Hc. congruence. }
    assert (Hstop : forall (r : result (list pyobj)),
               exists cs,
                 sent (snd (r, mkWorld (sent w ++ repeat (request_for cursor) (S k))
                                       (slept w ++ sl))) =
                   (sent w ++ List.map request_for cs)%list
                 /\ (forall c rest, cs = c :: rest -> c = cursor)).
    { intros r. exists (repeat cursor (S k)). cbn [snd sent]. rewrite List.map_repeat.
      split; [done|]. intros c rest Hc. cbn in Hc. congruence. }
    unfold bind, lift.
    destruct (page_rows payload) as [items| | |]; try apply Hstop.
    destruct (page_next_cursor payload) as [next| | |]; try apply Hstop.
    assert (Hgo : exists cs,
               sent (snd (collect_rows tr start_date end_date per_page hs fuel next
                            (rows ++ items)%list
                            (mkWorld (sent w ++ repeat (request_for cursor) (S k))
                                     (slept w ++ sl)))) =
                 (sent w ++ List.map request_for cs)%list
               /\ (forall c rest, cs = c :: rest -> c = cursor)).
    { destruct (IH next (rows ++ items)%list
                  (mkWorld (sent w ++ repeat (request_for cursor) (S k))
                           (slept w ++ sl))) as (cs & Hcs & _).
      exists (repeat cursor (S k) ++ cs)%list. rewrite Hcs. cbn [sent].
      rewrite List.map_app, List.map_repeat, app_assoc.
      split; [done|]. intros c rest Hc. cbn in Hc. congruence. }
    destruct next; first [apply Hstop | exact Hgo].
Qed.
End CollectMore.

(** X5. Whatever the upstream answers and however the run ends, every
    request [fetch_games] sends goes to the games endpoint with a timeout of
    20 seconds, carries the API key as its only header, and has the four
    parameters [start_date], [end_date] (both in ISO form), [per_page] and
    [cursor]; only the cursor differs between requests, and the first
    request of a run has cursor 0. *)
Theorem fetch_games_requests_uniform
    (tr : Transport) (environ : Environ)
    (local_tipoff : list pyobj -> result (list (option string)))
    (start_date end_date : date) (per_page : Z) (fuel : nat) (w : World) :
  exists (key : string) (cursors : list pyobj),
    sent (snd (fetch_games tr environ local_tipoff start_date end_date per_page fuel w)) =
      (sent w ++
       List.map
         (fun c =>
            mkRequest "https://api.balldontlie.io/v1/games"
              [ ("start_date", PStr (isoformat start_date));
                ("end_date", PStr (isoformat end_date));
                ("per_page", PInt per_page);
                ("cursor", c) ]
              [("Authorization", key)] 20)
         cursors)%list
    /\ (cursors <> [] -> key <> "")
    /\ (forall c rest, cursors = c :: rest -> c = PInt 0).
Proof.
  destruct (bdl_headers_cases environ w) as [(k & Hk & Hh)|Hh].
  - rewrite (fetch_games_world _ _ _ _ _ _ _ _ _ Hh).
    destruct (collect_rows_requests tr start_date end_date per_page
                [("Authorization", k)] fuel (PInt 0) [] w) as (cs & E & Hhead).
    exists k, cs. split; [exact E|]. by split.
  - exists "", []. unfold fetch_games, bind. rewrite Hh. cbn. rewrite app_nil_r.
    by split.
Qed.

(** X6. [bdl_headers] takes the key from BALLDONTLIE_API_KEY when that
    variable is set and not empty, else from BALDONTLIE_API_KEY when that
    one is set and not empty; the header it returns is never empty.  With
    neither, it stops the script, and [fetch_games] then raises before it
    sends any request. *)
Theorem api_key_resolution
    (tr : Transport) (environ : Environ)
    (local_tipoff : list pyobj -> result (list (option string)))
    (start_date end_date : date) (per_page : Z) (fuel : nat) (w : World) :
  let unset v := environ v = None \/ environ v = Some "" in
  (forall k, environ "BALLDONTLIE_API_KEY" = Some k -> k <> "" ->
             bdl_headers environ w = (Ok [("Authorization", k)], w))
  /\ (forall k, unset "BALLDONTLIE_API_KEY" ->
                environ "BALDONTLIE_API_KEY" = Some k -> k <> "" ->
                bdl_headers environ w = (Ok [("Authorization", k)], w))
  /\ (unset "BALLDONTLIE_API_KEY" -> unset "BALDONTLIE_API_KEY" ->
      bdl_headers environ w = (Raise StopException, w)
      /\ fetch_games tr environ local_tipoff start_date end_date per_page fuel w =
         (Raise StopException, w)).
Proof.
  cbn zeta. unfold fetch_games, bind, bdl_headers, or_else. split; [|split].
  - intros k -> Hk. cbn. destruct (String.eqb_spec k ""); [done|].
    cbn. by destruct (String.eqb_spec k "").
  - intros k [->| ->] -> Hk; cbn; by destruct (String.eqb_spec k "").
  - intros [->| ->] [->| ->]; by split.
Qed.

Lemma api_key_resolution_witness :
  bdl_headers sample_environ world0 = (Ok [("Authorization", "key")], world0)
  /\ bdl_headers fallback_environ world0 = (Ok [("Authorization", "spare")], world0)
  /\ fetch_games two_page_upstream keyless_environ sample_local_tipoff
                 march_1 march_7 100 2 world0 = (Raise StopException, world0).
Proof.
  destruct (api_key_resolution two_page_upstream sample_environ sample_local_tipoff
              march_1 march_7 100 2 world0) as (H1 & _ & _).
  destruct (api_key_resolution two_page_upstream fallback_environ sample_local_tipoff
              march_1 march_7 100 2 world0) as (_ & H2 & _).
  destruct (api_key_resolution two_page_upstream keyless_environ sample_local_tipoff
              march_1 march_7 100 2 world0) as (_ & _ & H3).
  split; [apply (H1 "key"); [reflexivity|discriminate]|].
  split; [apply (H2 "spare"); [by left|reflexivity|discriminate]|].
  apply H3; [by right|by left].
Defined.

Section CollectFailures.
Variable tr : Transport.
Variables (start_date end_date : date) (per_page : Z).
Variable hs : list (string * string).

(** Pages that name a next cursor are consumed one per turn. *)
Lemma collect_rows_open_chain pages rowss cursors :
  open_chain pages rowss cursors ->
  forall fuel cursor rows w,
    serves tr w pages ->
    exists next new,
      length new = length pages
      /\ collect_rows tr start_date end_date per_page hs (length pages + fuel)
                      cursor rows w =
         collect_rows tr start_date end_date per_page hs fuel next
                      (rows ++ concat rowss)%list
                      (mkWorld (sent w ++ new) (slept w)).
Proof using Type.
  induction 1 as [|p prow c pages rowss cursors Hr Hn Hc Hch IH];
    intros fuel cursor rows w Hs.
  - exists cursor, []. cbn. rewrite !app_nil_r. by destruct w.
  - cbn [length Nat.add].
    rewrite (collect_rows_served _ _ _ _ _ _ _ _ _ p prow c);
      [|by eapply serves_head|done|done].
    cbn zeta.
    destruct (IH fuel c (rows ++ prow)%list
                (mkWorld (sent w ++ [mkRequest games_url
                                       (page_params start_date end_date per_page cursor)
                                       hs default_timeout]) (slept w)))
      as (next & new & Hlen & E); [by eapply serves_tail|].
    eexists next, (_ :: new). split; [cbn; by rewrite Hlen|].
    cbn [sent slept] in E. rewrite <- !app_assoc in E. cbn [app] in E.
    cbn [concat]. rewrite <- E. by destruct c.
Qed.
End CollectFailures.

(** X7. No partial result: when the upstream serves some pages, each
    naming a next cursor, and then fails the four attempts made for the
    next page, [fetch_games] raises the RuntimeError of [safe_get]; the rows
    of the pages already collected are not returned.  It has then sent one
    request per page served and four for the page that failed. *)
Theorem fetch_games_no_partial_result
    (tr : Transport) (environ : Environ)
    (local_tipoff : list pyobj -> result (list (option string)))
    (start_date end_date : date) (per_page : Z) (hs : list (string * string))
    (pages : list pyobj) (rowss : list (list pyobj)) (cursors : list pyobj)
    (fuel : nat) (w : World) :
  bdl_headers environ w = (Ok hs, w) ->
  open_chain pages rowss cursors ->
  serves tr w pages ->
  (forall (i : nat) (req : Request),
     (i < 4)%nat -> fails games_url (tr (length (sent w) + length pages + i)%nat req)) ->
  (length pages < fuel)%nat ->
  exists last_err w',
    fetch_games tr environ local_tipoff start_date end_date per_page fuel w =
      (Raise (RuntimeError ("Request failed after 4 tries: " +:+ str_opt_exn last_err)),
       w')
    /\ length (sent w') = (length (sent w) + length pages + 4)%nat.
Proof.
  intros Hh Hch Hs Hfail Hf.
  unfold fetch_games, bind at 1. rewrite Hh. unfold bind at 1.
  destruct (collect_rows_open_chain tr start_date end_date per_page hs _ _ _ Hch
              (fuel - length pages) (PInt 0) [] w Hs) as (next & new & Hlen & E).
  replace (length pages + (fuel - length pages))%nat with fuel in E by lia.
  rewrite E.
  destruct (fuel - length pages)%nat as [|fuel'] eqn:Efuel; [lia|].
  cbn [collect_rows]. unfold bind at 1.
  assert (Hb : (0 <= default_backoff)%Q) by (apply Qle_bool_iff; reflexivity).
  unfold safe_get. rewrite safe_get_for_all_fail; [|done|].
  - eexists _, _. split; [reflexivity|].
    cbn [sent]. rewrite !length_app, repeat_length, Hlen.
    change (Z.to_nat default_retries) with 4%nat. lia.
  - unfold attempts_from. apply List.Forall_forall. intros a Ha.
    apply List.in_map_iff in Ha as (i & <- & Hi). apply in_seq in Hi.
    cbn [sent]. rewrite length_app, Hlen. apply Hfail.
    change (Z.to_nat default_retries) with 4%nat in Hi. lia.
Qed.

Lemma fetch_games_no_partial_result_witness :
  exists last_err w',
    fetch_games breaking_upstream sample_environ sample_local_tipoff
                march_1 march_7 100 2 world0 =
      (Raise (RuntimeError ("Request failed after 4 tries: " +:+ str_opt_exn last_err)),
       w')
    /\ length (sent w') = 5%nat.
Proof.
  assert (Hch : open_chain [page [g1; g2] (PStr "c1")] [[g1; g2]] [PStr "c1"]).
  { apply open_cons; [reflexivity|reflexivity|discriminate|constructor]. }
  assert (Hs : serves breaking_upstream world0 [page [g1; g2] (PStr "c1")]).
  { intros k p req Hk. destruct k as [|k]; [|by destruct k].
    injection Hk as <-. eexists. split; [reflexivity|]. cbn. split; [lia|reflexivity]. }
  assert (Hf : forall (i : nat) (req : Request),
             (i < 4)%nat ->
             fails games_url
               (breaking_upstream
                  (length (sent world0) + length [page [g1; g2] (PStr "c1")] + i)%nat
                  req)).
  { intros i req _. cbn. right. left. vm_compute. discriminate. }
  exact (fetch_games_no_partial_result breaking_upstream sample_environ
           sample_local_tipoff march_1 march_7 100 _ _ _ _ 2 world0
           (sample_headers world0) Hch Hs Hf (le_n 2)).
Defined.

(** ** Malformed pages *)

Section BadPages.
Variable tr : Transport.
Variables (start_date end_date : date) (per_page : Z).
Variable hs : list (string * string).
Variables (fuel : nat) (cursor : pyobj) (rows : list pyobj) (w w1 : World).

(** A turn of the loop in which a line of the body raises. *)
Lemma collect_rows_turn_raises_rows payload e :
  safe_get tr games_url (page_params start_date end_date per_page cursor) hs
           default_timeout default_retries default_backoff w = (Ok payload, w1) ->
  page_rows payload = Raise e ->
  collect_rows tr start_date end_date per_page hs (S fuel) cursor rows w = (Raise e, w1).
Proof using Type.
  intros Hs Hr. cbn [collect_rows]. unfold bind at 1. rewrite Hs.
  unfold bind, lift. by rewrite Hr.
Qed.

Lemma collect_rows_turn_raises_meta payload items e :
  safe_get tr games_url (page_params start_date end_date per_page cursor) hs
           default_timeout default_retries default_backoff w = (Ok payload, w1) ->
  page_rows payload = Ok items ->
  page_next_cursor payload = Raise e ->
  collect_rows tr start_date end_date per_page hs (S fuel) cursor rows w = (Raise e, w1).
Proof using Type.
  intros Hs Hr Hn. cbn [collect_rows]. unfold bind at 1. rewrite Hs.
  unfold bind, lift. by rewrite Hr, Hn.
Qed.
End BadPages.

(** X8. A page whose "data" field is present but is null, a boolean or a
    number is not treated like a page without the field: [rows.extend]
    cannot iterate over it, and the collection ends with a TypeError. *)
Theorem data_not_iterable_raises
    (tr : Transport) (start_date end_date : date) (per_page : Z)
    (hs : list (string * string)) (fuel : nat) (cursor : pyobj)
    (rows : list pyobj) (w w1 : World) (d : dict) (v : pyobj) :
  safe_get tr games_url (page_params start_date end_date per_page cursor) hs
           default_timeout default_retries default_backoff w = (Ok (PDict d), w1) ->
  dict_get d "data" = Some v ->
  not_iterable v ->
  collect_rows tr start_date end_date per_page hs (S fuel) cursor rows w =
  (Raise (TypeError ("'" +:+ type_name v +:+ "' object is not iterable")), w1).
Proof.
  intros Hs Hd Hv. eapply collect_rows_turn_raises_rows; [exact Hs|].
  unfold page_rows, py_get, rbind. rewrite Hd. by destruct v.
Qed.

Lemma data_not_iterable_raises_witness :
  collect_rows (payload_upstream (PDict [("data", PNone)])) march_1 march_7 100
               [("Authorization", "key")] 1 (PInt 0) [] world0 =
  (Raise (TypeError "'NoneType' object is not iterable"),
   mkWorld [mkRequest games_url (page_params march_1 march_7 100 (PInt 0))
              [("Authorization", "key")] default_timeout] []).
Proof.
  exact (data_not_iterable_raises (payload_upstream (PDict [("data", PNone)]))
           march_1 march_7 100 [("Authorization", "key")] 0 (PInt 0) [] world0 _
           [("data", PNone)] PNone eq_refl eq_refl I).
Defined.

(** X9. A body that decodes to something other than a JSON object (a list,
    a string, a number, null) has no [get]: the collection ends with an
    AttributeError, after the one request that returned it. *)
Theorem payload_not_object_raises
    (tr : Transport) (start_date end_date : date) (per_page : Z)
    (hs : list (string * string)) (fuel : nat) (cursor : pyobj)
    (rows : list pyobj) (w w1 : World) (payload : pyobj) :
  safe_get tr games_url (page_params start_date end_date per_page cursor) hs
           default_timeout default_retries default_backoff w = (Ok payload, w1) ->
  is_dict payload = false ->
  collect_rows tr start_date end_date per_page hs (S fuel) cursor rows w =
  (Raise (AttributeError
            ("'" +:+ type_name payload +:+ "' object has no attribute 'get'")), w1).
Proof.
  intros Hs Hd. eapply collect_rows_turn_raises_rows; [exact Hs|].
  unfold page_rows, py_get, rbind. by destruct payload.
Qed.

Lemma payload_not_object_raises_witness :
  collect_rows (payload_upstream (PList [g1])) march_1 march_7 100
               [("Authorization", "key")] 1 (PInt 0) [] world0 =
  (Raise (AttributeError "'list' object has no attribute 'get'"),
   mkWorld [mkRequest games_url (page_params march_1 march_7 100 (PInt 0))
              [("Authorization", "key")] default_timeout] []).
Proof.
  exact (payload_not_object_raises (payload_upstream (PList [g1]))
           march_1 march_7 100 [("Authorization", "key")] 0 (PInt 0) [] world0 _
           (PList [g1]) eq_refl eq_refl).
Defined.

(** X10. The "meta" field is replaced by an empty dict whenever it is falsy,
    not only when it is null: a page whose "meta" is [false], [0], an empty
    string, an empty list or an empty object ends the collection like the
    last page does.  A "meta" that is truthy and not an object (a non-empty
    string or list, a non-zero number, [true]) has no [get], and the
    collection ends with an AttributeError. *)
Theorem meta_truthiness
    (tr : Transport) (start_date end_date : date) (per_page : Z)
    (hs : list (string * string)) (fuel : nat) (cursor : pyobj)
    (rows items : list pyobj) (w w1 : World) (d : dict) (m : pyobj) :
  safe_get tr games_url (page_params start_date end_date per_page cursor) hs
           default_timeout default_retries default_backoff w = (Ok (PDict d), w1) ->
  page_rows (PDict d) = Ok items ->
  dict_get d "meta" = Some m ->
  (truthy m = false ->
   collect_rows tr start_date end_date per_page hs (S fuel) cursor rows w =
   (Ok (rows ++ items)%list, w1))
  /\ (truthy m = true -> is_dict m = false ->
      collect_rows tr start_date end_date per_page hs (S fuel) cursor rows w =
      (Raise (AttributeError
                ("'" +:+ type_name m +:+ "' object has no attribute 'get'")), w1)).
Proof.
  intros Hs Hr Hm. split.
  - intros Ht.
    rewrite (collect_rows_turn _ _ _ _ _ _ _ _ _ _ _ items PNone Hs Hr); [done|].
    unfold page_next_cursor, py_get, rbind. by rewrite Hm, Ht.
  - intros Ht Hd. eapply collect_rows_turn_raises_meta; [exact Hs|exact Hr|].
    unfold page_next_cursor, py_get, rbind. rewrite Hm, Ht. by destruct m.
Qed.

Lemma meta_truthiness_witness :
  collect_rows (payload_upstream (PDict [("data", PList [g1]); ("meta", PInt 0)]))
               march_1 march_7 100 [("Authorization", "key")] 1 (PInt 0) [] world0 =
  (Ok [g1],
   mkWorld [mkRequest games_url (page_params march_1 march_7 100 (PInt 0))
              [("Authorization", "key")] default_timeout] [])
  /\ collect_rows (payload_upstream (PDict [("data", PList [g1]); ("meta", PStr "end")]))
                  march_1 march_7 100 [("Authorization", "key")] 1 (PInt 0) [] world0 =
     (Raise (AttributeError "'str' object has no attribute 'get'"),
      mkWorld [mkRequest games_url (page_params march_1 march_7 100 (PInt 0))
                 [("Authorization", "key")] default_timeout] []).
Proof.
  split.
  - exact (proj1 (meta_truthiness
                    (payload_upstream (PDict [("data", PList [g1]); ("meta", PInt 0)]))
                    march_1 march_7 100 [("Authorization", "key")] 0 (PInt 0) [] [g1]
                    world0 _ [("data", PList [g1]); ("meta", PInt 0)] (PInt 0)
                    eq_refl eq_refl eq_refl) eq_refl).
  - exact (proj2 (meta_truthiness
                    (payload_upstream (PDict [("data", PList [g1]); ("meta", PStr "end")]))
                    march_1 march_7 100 [("Authorization", "key")] 0 (PInt 0) [] [g1]
                    world0 _ [("data", PList [g1]); ("meta", PStr "end")] (PStr "end")
                    eq_refl eq_refl eq_refl) eq_refl eq_refl).
Defined.

(** ** More on the frame *)

(** X11. The sort is always on [date]: when no collected row has a "date"
    field, the frame has no such column, and [fetch_games] raises
    KeyError('date') instead of returning the rows unsorted. *)
Theorem fetch_games_without_date_raises
    (tr : Transport) (environ : Environ)
    (local_tipoff : list pyobj -> result (list (option string)))
    (start_date end_date : date) (per_page : Z) (fuel : nat)
    (hs : list (string * string)) (w w' : World)
    (rows : list pyobj) (df0 pre : DataFrame) :
  bdl_headers environ w = (Ok hs, w) ->
  collect_rows tr start_date end_date per_page hs fuel (PInt 0) [] w = (Ok rows, w') ->
  rows <> [] ->
  json_normalize rows = Ok df0 ->
  has_column df0 "date" = false ->
  prepare_frame local_tipoff rows = Ok pre ->
  fetch_games tr environ local_tipoff start_date end_date per_page fuel w =
  (Raise (KeyError "'date'"), w').
Proof.
  intros Hh Hc Hne H0 Hd Hp. unfold fetch_games, bind. rewrite Hh, Hc.
  destruct rows as [|row rows]; [done|]. unfold lift, normalize. rewrite Hp.
  cbn [rbind].
  assert (Hpd : has_column pre "date" = false).
  { rewrite (has_column_prepared _ _ _ _ Hp), H0, Hd. reflexivity. }
  assert (Hpt : has_column pre "tipoff_local" = true).
  { rewrite (has_column_prepared _ _ _ _ Hp), H0. cbn. by rewrite orb_true_r. }
  rewrite Hpt. unfold sort_values. cbn [missing_label]. by rewrite Hpd.
Qed.

Lemma fetch_games_without_date_raises_witness :
  fst (fetch_games dateless_upstream sample_environ sample_local_tipoff
                   march_1 march_7 100 1 world0) = Raise (KeyError "'date'").
Proof.
  assert (Hc : collect_rows dateless_upstream march_1 march_7 100
                 [("Authorization", "key")] 1 (PInt 0) [] world0 =
               (Ok [dateless_game],
                mkWorld [mkRequest games_url (page_params march_1 march_7 100 (PInt 0))
                           [("Authorization", "key")] default_timeout] []))
    by reflexivity.
  assert (Hne : [dateless_game] <> []) by discriminate.
  destruct (json_normalize [dateless_game]) as [df0| | |] eqn:E0;
    try (vm_compute in E0; discriminate E0).
  destruct (prepare_frame sample_local_tipoff [dateless_game]) as [pre| | |] eqn:Ep;
    try (vm_compute in Ep; discriminate Ep).
  assert (Hd : has_column df0 "date" = false).
  { vm_compute in E0. injection E0 as <-. reflexivity. }
  by rewrite (fetch_games_without_date_raises _ _ _ _ _ _ _ _ _ _ _ _ _
                (sample_headers world0) Hc Hne E0 Hd Ep).
Defined.

(** X12. When no page holds any row, [fetch_games] returns the empty frame
    [pd.DataFrame()] as soon as the last page is read: nothing is normalized
    or converted, so it returns even where the time zone conversion would
    fail. *)
Theorem fetch_games_no_rows
    (tr : Transport) (environ : Environ)
    (local_tipoff : list pyobj -> result (list (option string)))
    (start_date end_date : date) (per_page : Z) (hs : list (string * string))
    (pages : list pyobj) (rowss : list (list pyobj)) (cursors : list pyobj)
    (fuel : nat) (w : World) :
  bdl_headers environ w = (Ok hs, w) ->
  pages_chain pages rowss cursors ->
  serves tr w pages ->
  (length pages <= fuel)%nat ->
  concat rowss = [] ->
  exists w',
    fetch_games tr environ local_tipoff start_date end_date per_page fuel w =
      (Ok empty_frame, w')
    /\ length (sent w') = (length (sent w) + length pages)%nat.
Proof.
  intros Hh Hch Hs Hf Hempty. unfold fetch_games, bind. rewrite Hh.
  rewrite (collect_rows_chain tr start_date end_date per_page hs _ _ _ Hch
             fuel (PInt 0) [] w Hs Hf).
  rewrite Hempty. cbn [app]. eexists. split; [reflexivity|].
  cbn [sent]. rewrite length_app, length_map.
  destruct (pages_chain_length _ _ _ Hch) as [-> _]. done.
Qed.

Lemma fetch_games_no_rows_witness :
  exists w',
    fetch_games empty_upstream sample_environ broken_local_tipoff
                march_1 march_7 100 2 world0 = (Ok empty_frame, w')
    /\ length (sent w') = 2%nat.
Proof.
  assert (Hch : pages_chain empty_pages [[]; []] [PInt 25]).
  { unfold empty_pages. apply chain_next; [done|done|done|]. by apply chain_last. }
  assert (Hs : serves empty_upstream world0 empty_pages).
  { intros k p req Hk. unfold empty_upstream, ok_200. cbn [sent world0 length Nat.add].
    rewrite (nth_error_nth _ _ _ Hk).
    eexists. split; [reflexivity|]. cbn [status_code json]. split; [lia|done]. }
  exact (fetch_games_no_rows empty_upstream sample_environ broken_local_tipoff
           march_1 march_7 100 _ _ _ _ 2 world0 (sample_headers world0) Hch Hs
           (le_n 2) eq_refl).
Defined.











(** ** More on the cache *)

(** X14. The cached result expires: after a call at time [t0] that ran the
    body and stored its result, a call with the same arguments at a time
    [t1 >= t0 + 600] runs the body of [fetch_games] again, in the world as
    it is then, and stores what it returns with the time [t1]. *)
Theorem fetch_games_cached_expires
    (tr : Transport) (environ : Environ)
    (local_tipoff : list pyobj -> result (list (option string)))
    (start_date end_date : date) (per_page : Z) (fuel fuel' : nat)
    (t0 t1 : Q) (cache cache1 : gmap (date * date * Z) CacheEntry)
    (w w1 : World) (df : DataFrame) :
  match cache !! (start_date, end_date, per_page) with
  | Some e => fresh t0 e = false
  | None => True
  end ->
  fetch_games_cached tr environ local_tipoff t0 start_date end_date per_page
                     fuel cache w = (Ok df, cache1, w1) ->
  (t0 + 60 * 10 <= t1)%Q ->
  fetch_games_cached tr environ local_tipoff t1 start_date end_date per_page
                     fuel' cache1 w1 =
  match fetch_games tr environ local_tipoff start_date end_date per_page fuel' w1 with
  | (Ok df', w2) =>
      (Ok df', <[(start_date, end_date, per_page) := mkEntry df' t1]> cache1, w2)
  | (r, w2) => (r, cache1, w2)
  end.
Proof.
  intros Hmiss H1 Hle.
  assert (Hc1 : cache1 !! (start_date, end_date, per_page) = Some (mkEntry df t0)).
  { unfold fetch_games_cached in H1.
    destruct (cache !! (start_date, end_date, per_page)) as [e|] eqn:E.
    - rewrite Hmiss in H1.
      destruct (fetch_games _ _ _ _ _ _ _ _) as [[df'| | |] w'']; try done.
      inversion H1; subst. apply lookup_insert_eq.
    - destruct (fetch_games _ _ _ _ _ _ _ _) as [[df'| | |] w'']; try done.
      inversion H1; subst. apply lookup_insert_eq. }
  unfold fetch_games_cached at 1. rewrite Hc1. unfold fresh. cbn [stored_at].
  replace (Qle_bool (t0 + ttl) t1) with true; [done|].
  symmetry. by apply Qle_bool_iff.
Qed.

Lemma fetch_games_cached_expires_witness :
  exists w2,
    fetch_games_cached two_page_upstream sample_environ sample_local_tipoff
                       (1000 + 600) march_1 march_7 100 1
                       {[ (march_1, march_7, 100) := mkEntry two_page_frame 1000 ]}
                       (snd two_page_run)
    = (Ok empty_frame,
       <[ (march_1, march_7, 100) := mkEntry empty_frame (1000 + 600) ]>
         {[ (march_1, march_7, 100) := mkEntry two_page_frame 1000 ]},
       w2)
    /\ length (sent w2) = 3%nat.
Proof.
  assert (H0 : match (∅ : gmap (date * date * Z) CacheEntry) !! (march_1, march_7, 100) with
               | Some e => fresh 1000 e = false
               | None => True
               end) by (rewrite lookup_empty; exact I).
  assert (H1 : fetch_games_cached two_page_upstream sample_environ
                 sample_local_tipoff 1000 march_1 march_7 100 2 ∅ world0
               = (Ok two_page_frame,
                  {[ (march_1, march_7, 100) := mkEntry two_page_frame 1000 ]},
                  snd two_page_run)).
  { unfold fetch_games_cached. rewrite lookup_empty, two_page_fetch.
    by rewrite insert_empty. }
  assert (H2 : (1000 + 60 * 10 <= 1000 + 600)%Q) by (apply Qle_bool_iff; reflexivity).
  pose proof (fetch_games_cached_expires two_page_upstream sample_environ
                sample_local_tipoff march_1 march_7 100 2 1 1000 (1000 + 600)
                ∅ _ world0 _ _ H0 H1 H2) as E.
  eassert (Hrun : fetch_games two_page_upstream sample_environ sample_local_tipoff
                    march_1 march_7 100 1 (snd two_page_run) = (Ok empty_frame, _))
    by (vm_compute; reflexivity).
  rewrite Hrun in E. eexists. split; [exact E|reflexivity].
Defined.

(** X15. What a call leaves in the cache: entries under other arguments
    are untouched, and a call that raises stores nothing, so that the next
    call with these arguments runs the body again. *)
Theorem fetch_games_cached_update
    (tr : Transport) (environ : Environ)
    (local_tipoff : list pyobj -> result (list (option string)))
    (start_date end_date : date) (per_page : Z) (fuel : nat) (t : Q)
    (cache cache1 : gmap (date * date * Z) CacheEntry)
    (w w1 : World) (r : result DataFrame) :
  fetch_games_cached tr environ local_tipoff t start_date end_date per_page
                     fuel cache w = (r, cache1, w1) ->
  (forall key, key <> (start_date, end_date, per_page) ->
               cache1 !! key = cache !! key)
  /\ (forall e, r = Raise e ->
                cache1 = cache
                /\ fetch_games tr environ local_tipoff start_date end_date per_page
                               fuel w = (Raise e, w1)).
Proof.
  unfold fetch_games_cached. intros H.
  assert (Hcompute :
            match fetch_games tr environ local_tipoff start_date end_date per_page
                              fuel w with
            | (Ok df, w') =>
                (Ok df, <[(start_date, end_date, per_page) := mkEntry df t]> cache, w')
            | (r', w') => (r', cache, w')
            end = (r, cache1, w1) ->
            (forall key, key <> (start_date, end_date, per_page) ->
                         cache1 !! key = cache !! key)
            /\ (forall e, r = Raise e ->
                          cache1 = cache
                          /\ fetch_games tr environ local_tipoff start_date end_date
                                         per_page fuel w = (Raise e, w1))).
  { destruct (fetch_games _ _ _ _ _ _ _ _) as [[df| e'| |] w']; intros [= <- <- <-];
      (split; [|by intros e [= <-]]); try done.
    intros key Hk. by rewrite lookup_insert_ne. }
  destruct (cache !! (start_date, end_date, per_page)) as [e|]; [|by apply Hcompute].
  destruct (fresh t e); [|by apply Hcompute].
  inversion H; subst. by split.
Qed.

Lemma fetch_games_cached_update_witness :
  fst (fetch_games_cached failing_transport sample_environ sample_local_tipoff
                          1000 march_1 march_7 100 1 ∅ world0)
  = (Raise (RuntimeError
              "Request failed after 4 tries: Expecting value: line 1 column 1 (char 0)"),
     ∅).
Proof.
  eassert (Hrun : fetch_games failing_transport sample_environ sample_local_tipoff
                    march_1 march_7 100 1 world0 = (Raise _, _))
    by (vm_compute; reflexivity).
  destruct (fetch_games_cached failing_transport sample_environ sample_local_tipoff
              1000 march_1 march_7 100 1 ∅ world0) as [[r c1] w1] eqn:H.
  destruct (fetch_games_cached_update _ _ _ _ _ _ _ _ _ _ _ _ _ H) as [_ Hraise].
  unfold fetch_games_cached in H. rewrite lookup_empty, Hrun in H.
  injection H as <- <- <-.
  destruct (Hraise _ eq_refl) as [_ E]. reflexivity.
Defined.

(** ** Dates and [week_bounds] *)

Lemma cycle_ok_from_spec count : forall n0 n,
  cycle_ok_from count n0 = true ->
  n0 <= n < n0 + Z.of_nat count ->
  cycle_ok n = true.
Proof.
  induction count as [|count IH]; intros n0 n H Hn; [lia|].
  cbn [cycle_ok_from] in H. destruct (cycle_ok n0) eqn:E; [|done].
  destruct (Z.eq_dec n n0) as [->|Hne]; [done|].
  apply (IH (n0 + 1)); [done|lia].
Qed.

(** The 146097 days of the first 400 years, checked one by one. *)
Lemma first_cycle_checked : cycle_ok_from (Z.to_nat 146097) 1 = true.
Proof. vm_compute. reflexivity. Qed.

Lemma first_cycle n : 1 <= n <= 146097 -> cycle_ok n = true.
Proof.
  intros Hn. apply (cycle_ok_from_spec (Z.to_nat 146097) 1); [apply first_cycle_checked|lia].
Qed.
